(** * MCVirt storage provisioning: hard-drive factory, LVM volumes, local disks

    A shallow embedding of
      - [mcvirt/virtual_machine/hard_drive/factory.py]  (class [Factory]),
      - [mcvirt/storage/lvm.py]                         (classes [Lvm], [LvmVolume]),
      - [mcvirt/virtual_machine/hard_drive/local.py]    (class [Local]),
      - [mcvirt/rpc/pyro_object.py]                     (class [PyroObject]),
    followed by the properties of the storage specification that were
    checked against them.

    Python methods that mutate process state or run external tools are
    functions in a state-and-exception monad; a raised exception keeps the
    state reached so far, as in Python. *)

From Stdlib Require Import ZArith Lia Ascii String.
From stdpp Require Import gmap strings list fin_maps pretty.

Open Scope Z_scope.
Open Scope string_scope.
Open Scope list_scope.

(** ** Python values, truthiness and exceptions *)

Module Py.

(** The Python values that reach the modelled code: [None], a [str], an
    [int], or a reference to some other object. *)
Inductive value : Type :=
  | None_
  | Str (s : string)
  | Int (n : Z)
  | Ref (r : nat).

#[global] Instance value_eq_dec : EqDecision value.
Proof. solve_decision. Defined.

Definition value_encode (v : value) : unit + string + Z + nat :=
  match v with
  | None_ => inl (inl (inl tt))
  | Str s => inl (inl (inr s))
  | Int n => inl (inr n)
  | Ref r => inr r
  end.

Definition value_decode (x : unit + string + Z + nat) : value :=
  match x with
  | inl (inl (inl _)) => None_
  | inl (inl (inr s)) => Str s
  | inl (inr n) => Int n
  | inr r => Ref r
  end.

#[global] Instance value_countable : Countable value.
Proof.
  refine (inj_countable' value_encode value_decode _).
  intros []; reflexivity.
Defined.

(** [bool(v)]: [None], the empty string and zero are false. *)
Definition truthy (v : value) : bool :=
  match v with
  | None_ => false
  | Str s => negb (String.eqb s "")
  | Int n => negb (Z.eqb n 0)
  | Ref _ => true
  end.

(** [a or b]. *)
Definition or_ (a b : value) : value := if truthy a then a else b.

(** [v is None]. *)
Definition is_None (v : value) : bool :=
  match v with None_ => true | _ => false end.

(** [str(v)], as used by the [%s] conversions of the modelled code. *)
Definition str (v : value) : string :=
  match v with
  | None_ => "None"
  | Str s => s
  | Int n => pretty n
  | Ref r => "<object " +:+ pretty r +:+ ">"
  end.

(** The exception classes raised or caught by the modelled code, each with
    its message. *)
Inductive exn : Type :=
  | UnknownStorageTypeException (msg : string)
  | UnknownStorageBackendException (msg : string)
  | InsufficientSpaceException (msg : string)
  | StorageBackendNotAvailableOnNode (msg : string)
  | HardDriveDoesNotExistException (msg : string)
  | ExternalStorageCommandErrorException (msg : string)
  | MCVirtCommandException (msg : string)
  | CannotMigrateLocalDiskException (msg : string)
  | VmAlreadyStartedException (msg : string)
  | VmIsCloneException (msg : string)
  | InsufficientPermissionsException (msg : string)
  | NotImplementedError
  | TypeError (msg : string)
  | ValueError (msg : string)
  | OverflowError (msg : string)
  | KeyError (msg : string).

#[global] Instance exn_eq_dec : EqDecision exn.
Proof. solve_decision. Defined.

End Py.

(** ** State and exception monad *)

(** A computation over a state [S]: it ends with a value or a raised
    exception, and with the state it has reached. *)
Definition M (S A : Type) : Type := S → (Py.exn + A) * S.

Definition ret {S A} (a : A) : M S A := λ s, (inr a, s).

Definition bind {S A B} (m : M S A) (k : A → M S B) : M S B :=
  λ s, match m s with
       | (inr a, s') => k a s'
       | (inl e, s') => (inl e, s')
       end.

Definition raise {S A} (e : Py.exn) : M S A := λ s, (inl e, s).

Definition get {S} : M S S := λ s, (inr s, s).

Definition modify {S} (f : S → S) : M S unit := λ s, (inr tt, f s).

(** [try: m  except <caught>, exc: raise h(exc)]; [handler e = None] means
    that the [except] clause does not match [e]. *)
Definition try_except {S A} (m : M S A) (handler : Py.exn → option Py.exn)
  : M S A :=
  λ s, match m s with
       | (inl e, s') =>
           match handler e with
           | Some e' => (inl e', s')
           | None => (inl e, s')
           end
       | r => r
       end.

(** Lift a pure result that may be an exception. *)
Definition lift {S A} (r : Py.exn + A) : M S A := λ s, (r, s).

#[global] Instance M_ret {S} : MRet (M S) := @ret S.
#[global] Instance M_bind {S} : MBind (M S) := λ A B k m, bind m k.

(** ** The node the code runs on *)

(** The outcome of one external command: [(exit code, stdout, stderr)]. *)
Record CommandResult : Type := {
  exit_code : Z;
  stdout : string;
  stderr : string;
}.

(** What is outside the modelled code on a node. An external tool or a
    path probe is answered from the commands executed so far (oldest
    first), so that a command may change what a later one reports. *)
Record Host : Type := {
  (** what running [argv] yields, after the commands in the history *)
  tool : list (list string) → list string → CommandResult;
  (** the text of the [MCVirtCommandException] for a failed command *)
  failure_text : list string → CommandResult → string;
  (** [os.path.lexists(path)] *)
  lexists : list (list string) → string → bool;
  (** [get_hostname()] *)
  get_hostname : string;
}.

(** One remote call of [ensure_hdd_valid] sent through the cluster:
    node, size, storage type, nodes, name of the storage backend. *)
Record RemoteValidation : Type := {
  rv_node : string;
  rv_size : Z;
  rv_storage_type : Py.value;
  rv_nodes : list string;
  rv_storage_backend : string;
}.

(** The effects a node has seen: the external commands executed and the
    validations sent to other nodes, oldest first. *)
Record world : Type := {
  executed : list (list string);
  dispatched : list RemoteValidation;
}.

Definition new_world : world := {| executed := []; dispatched := [] |}.

Definition newline : string := String (ascii_of_nat 10) EmptyString.

(** ** Reading numbers the way Python does *)

Module Parse.

(** The characters [str.strip()] removes: space, tab, line feed, carriage
    return, vertical tab, form feed. *)
Definition is_space (c : ascii) : bool :=
  let n := nat_of_ascii c in
  (Nat.eqb n 32 || (Nat.leb 9 n && Nat.leb n 13))%bool.

Fixpoint lstrip (l : list ascii) : list ascii :=
  match l with
  | c :: l' => if is_space c then lstrip l' else l
  | [] => []
  end.

(** [s.strip()]. *)
Definition strip (l : list ascii) : list ascii :=
  rev (lstrip (rev (lstrip l))).

(** [s.split('.')[0]]: the characters before the first dot. *)
Fixpoint before_dot (l : list ascii) : list ascii :=
  match l with
  | c :: l' => if Ascii.eqb c "." then [] else c :: before_dot l'
  | [] => []
  end.

Definition digit_of (c : ascii) : option Z :=
  let n := nat_of_ascii c in
  if (Nat.leb 48 n && Nat.leb n 57)%bool then Some (Z.of_nat (n - 48))
  else None.

(** The longest prefix of decimal digits, and what follows it. *)
Fixpoint span_digits (l : list ascii) : list Z * list ascii :=
  match l with
  | c :: l' =>
      match digit_of c with
      | Some d => let '(ds, r) := span_digits l' in (d :: ds, r)
      | None => ([], l)
      end
  | [] => ([], [])
  end.

(** The number written by the digits [ds], most significant first. *)
Definition number (ds : list Z) : Z :=
  fold_left (λ acc d, 10 * acc + d) ds 0.

Definition signed {A} (unsigned : list ascii → option A) (neg : A → A)
  (l : list ascii) : option A :=
  match l with
  | c :: l' =>
      if Ascii.eqb c "-" then neg <$> unsigned l'
      else if Ascii.eqb c "+" then unsigned l'
      else unsigned l
  | [] => unsigned l
  end.

Definition int_unsigned (l : list ascii) : option Z :=
  match span_digits l with
  | (d :: ds, []) => Some (number (d :: ds))
  | _ => None
  end.

(** [int(s)] for a [str]: optional blanks around an optionally signed
    run of decimal digits; anything else is a [ValueError]. *)
Definition int (s : string) : Py.exn + Z :=
  match signed int_unsigned Z.opp (strip (list_ascii_of_string s)) with
  | Some n => inr n
  | None => inl (Py.ValueError
                   ("invalid literal for int() with base 10: '" +:+ s +:+ "'"))
  end.

(** A Python [float], an IEEE 754 binary64 number: [Finite m e] is
    [m * 2 ^ e], the others are the infinities and not-a-number. The sign
    of a zero is not kept; it has no part in a comparison or in [%i]. *)
Inductive binary64 : Type :=
  | Finite (m e : Z)
  | Infinite (negative : bool)
  | NaN.

Definition negate (x : binary64) : binary64 :=
  match x with
  | Finite m e => Finite (- m) e
  | Infinite negative => Infinite (negb negative)
  | NaN => NaN
  end.

(** The exponent of the leading bit of [n / d], for [0 < n] and [0 < d]:
    the greatest [k] with [2 ^ k <= n / d]. It is the difference of the
    bit lengths of [n] and [d], or one less. *)
Definition binade (n d : Z) : Z :=
  let k0 := Z.log2 n - Z.log2 d in
  if (if Z.leb 0 k0 then Z.leb (d * 2 ^ k0) n else Z.leb d (n * 2 ^ (- k0)))
  then k0 else k0 - 1.

(** [n / d] rounded to a multiple of [2 ^ e], to the nearest one and, of
    two that are as near, to the even one; [2 ^ 1024] and more is
    infinity. *)
Definition round_at (n d e : Z) : binary64 :=
  let num := if Z.leb 0 e then n else n * 2 ^ (- e) in
  let den := if Z.leb 0 e then d * 2 ^ e else d in
  let q := num / den in
  let r := num mod den in
  let q := if (Z.ltb den (2 * r) || (Z.eqb den (2 * r) && Z.odd q))%bool
           then q + 1 else q in
  if (Z.leb 0 e && Z.leb (2 ^ 1024) (q * 2 ^ e))%bool
  then Infinite false
  else Finite q e.

(** The binary64 nearest to [n / d], for [0 < n] and [0 < d]: a
    significand of 53 bits below the leading bit, or one that ends at
    [2 ^ -1074], where the subnormal numbers are. *)
Definition round_ratio (n d : Z) : binary64 :=
  round_at n d (Z.max (binade n d - 52) (-1074)).

(** The binary64 nearest to [M * 10 ^ E], for [0 <= M], as the correctly
    rounded conversion of [float] gives it. *)
Definition round64 (M E : Z) : binary64 :=
  if Z.eqb M 0 then Finite 0 0
  else if Z.leb 0 E then round_ratio (M * 10 ^ E) 1
  else round_ratio M (10 ^ (- E)).

(** An upper case letter as the lower case one. *)
Definition lower (c : ascii) : ascii :=
  let n := nat_of_ascii c in
  if (Nat.leb 65 n && Nat.leb n 90)%bool then ascii_of_nat (n + 32) else c.

(** [inf], [infinity] and [nan], in any case. *)
Definition special (l : list ascii) : option binary64 :=
  let s := string_of_list_ascii (map lower l) in
  if (String.eqb s "inf" || String.eqb s "infinity")%bool
  then Some (Infinite false)
  else if String.eqb s "nan" then Some NaN
  else None.

(** The exponent after a numeral: nothing, or [e] or [E], an optional
    sign and at least one digit. *)
Definition exponent_part (r : list ascii) : option Z :=
  match r with
  | [] => Some 0
  | c :: r' =>
      if Ascii.eqb (lower c) "e" then signed int_unsigned Z.opp r'
      else None
  end.

(** A numeral [digits], [digits.], [.digits] or [digits.digits] with its
    exponent part, as the pair [(M, E)] of the number [M * 10 ^ E]. *)
Definition decimal_unsigned (l : list ascii) : option (Z * Z) :=
  let '(ip, r) := span_digits l in
  let '(fp, r) :=
    match r with
    | c :: r' => if Ascii.eqb c "." then span_digits r' else ([], r)
    | [] => ([], [])
    end in
  match ip ++ fp with
  | [] => None
  | ds =>
      match exponent_part r with
      | Some ex => Some (number ds, ex - Z.of_nat (length fp))
      | None => None
      end
  end.

Definition float_unsigned (l : list ascii) : option binary64 :=
  match special l with
  | Some x => Some x
  | None =>
      match decimal_unsigned l with
      | Some (M, E) => Some (round64 M E)
      | None => None
      end
  end.

(** [float(s)] for a [str]: optional blanks around an optionally signed
    numeral, infinity or not-a-number; anything else is a
    [ValueError]. *)
Definition float (s : string) : Py.exn + binary64 :=
  match signed float_unsigned negate (strip (list_ascii_of_string s)) with
  | Some x => inr x
  | None => inl (Py.ValueError
                   ("could not convert string to float: " +:+ s))
  end.

(** [x < n] for a float [x] and an int [n], which Python compares by
    their exact values. *)
Definition lt_int (x : binary64) (n : Z) : bool :=
  match x with
  | Finite m e =>
      if Z.leb 0 e then Z.ltb (m * 2 ^ e) n else Z.ltb m (n * 2 ^ (- e))
  | Infinite negative => negative
  | NaN => false
  end.

(** [int(x)], the integer [%i] prints for a float: the number cut
    towards zero; the infinities and not-a-number have none. *)
Definition int_of_float (x : binary64) : Py.exn + Z :=
  match x with
  | Finite m e =>
      inr (if Z.leb 0 e then m * 2 ^ e else Z.quot m (2 ^ (- e)))
  | Infinite _ =>
      inl (Py.OverflowError "cannot convert float infinity to integer")
  | NaN => inl (Py.ValueError "cannot convert float NaN to integer")
  end.

(** ['%i' % x] for a float [x]: the digits of [int(x)]. Where [int]
    raises, on an infinity or not-a-number, the formatting of Python 2.7
    gives up the conversion and reports that it was given no number. *)
Definition format_i (x : binary64) : Py.exn + string :=
  match int_of_float x with
  | inr whole => inr (pretty whole)
  | inl _ => inl (Py.TypeError "%d format: a number is required, not float")
  end.

(** Whether the float is a whole number. *)
Definition is_whole (x : binary64) : bool :=
  match x with
  | Finite m e => if Z.leb 0 e then true else Z.eqb (Z.rem m (2 ^ (- e))) 0
  | _ => false
  end.

End Parse.

(** ** [mcvirt.system.System] *)

Module System.

(** Modelled from the spec: [System.runCommand] of [mcvirt/system.py],
    which is not among the sources: "run(argv) -> (exitCode, stdout,
    stderr), raising a command-failure signal on non-zero exit". The
    second positional argument of the calls in [lvm.py] is taken to be the
    flag that turns that signal off (it is [False] where the caller reads
    the output of a command that may fail), the third the working
    directory, which has no part here. *)
Definition runCommand (host : Host) (command_args : list string)
  (raise_exception_on_failure : bool) : M world CommandResult :=
  λ w,
    let r := tool host (executed w) command_args in
    let w' := {| executed := executed w ++ [command_args];
                 dispatched := dispatched w |} in
    if (negb (Z.eqb (exit_code r) 0) && raise_exception_on_failure)%bool
    then (inl (Py.MCVirtCommandException (failure_text host command_args r)),
          w')
    else (inr r, w').

End System.

(** [except MCVirtCommandException, exc: raise
    ExternalStorageCommandErrorException(prefix + str(exc))]. *)
Definition wrap_command_error (prefix : string) (e : Py.exn)
  : option Py.exn :=
  match e with
  | Py.MCVirtCommandException msg =>
      Some (Py.ExternalStorageCommandErrorException (prefix +:+ msg))
  | _ => None
  end.

(** ** [mcvirt.storage.lvm.Lvm] *)

Module Lvm.

(** A storage backend object. The attributes come from
    [mcvirt/storage/base.py], which is not among the sources;
    [get_location None] is [get_location()] on the local node, and
    [ensure_available_on_node] is the exception that method raises, if
    any. *)
Record t : Type := {
  name : string;
  get_location : option string → string;
  shared : bool;
  ensure_available_on_node : option Py.exn;
}.

(** [Lvm.get_free_space]: the free space in megabytes, [float(out)]. *)
Definition get_free_space (host : Host) (self : t) : M world Parse.binary64 :=
  r ← System.runCommand host
        ["vgs"; get_location self None; "-o"; "free"; "--noheadings";
         "--nosuffix"; "--units"; "m"] false;
  lift (Parse.float (stdout r)).

End Lvm.

(** ** [mcvirt.storage.lvm.LvmVolume] *)

Module LvmVolume.

Record t : Type := {
  name : string;
  storage_backend : Lvm.t;
}.

(** [get_path(node=None)]. *)
Definition get_path (self : t) (node : option string) : string :=
  "/dev/" +:+ Lvm.get_location (storage_backend self) node +:+ "/"
  +:+ name self.

(** [check_exists]: [os.path.lexists(self.get_path())]. *)
Definition check_exists (host : Host) (self : t) : M world bool :=
  λ w, (inr (lexists host (executed w) (get_path self None)), w).

(** [create(size)]. *)
Definition create (host : Host) (self : t) (size : Py.value) : M world unit :=
  let command_args :=
    ["/sbin/lvcreate"; Lvm.get_location (storage_backend self) None;
     "--name"; name self; "--size"; Py.str size +:+ "M"] in
  try_except
    (System.runCommand host command_args true;; ret tt)
    (wrap_command_error
       ("Error whilst creating disk logical volume:" +:+ newline)).

(** [delete(ignore_non_existent=False)]. *)
Definition delete (host : Host) (self : t) (ignore_non_existent : bool)
  : M world unit :=
  let command_args := ["lvremove"; "-f"; get_path self None] in
  try_except
    (skip ← (if ignore_non_existent
             then (e ← check_exists host self; ret (negb e))
             else ret false);
     if negb skip
     then System.runCommand host command_args true;; ret tt
     else ret tt)
    (wrap_command_error ("Error whilst removing logical volume:" +:+ newline)).

(** [activate()]. *)
Definition activate (host : Host) (self : t) : M world unit :=
  let command_args := ["lvchange"; "-a"; "y"; "--yes"; get_path self None] in
  try_except
    (System.runCommand host command_args true;; ret tt)
    (wrap_command_error
       ("Error whilst activating logical volume:" +:+ newline)).

(** [snapshot(destination_volume, size)]: no [try] around the command. *)
Definition snapshot (host : Host) (self : t) (destination_volume : t)
  (size : string) : M world unit :=
  System.runCommand host
    ["lvcreate"; "--snapshot"; get_path self None;
     "--name"; name destination_volume; "--size"; size] true;;
  ret tt.

(** [deactivate()]. *)
Definition deactivate (self : t) : M world unit :=
  raise Py.NotImplementedError.

(** [resize(size)]. *)
Definition resize (host : Host) (self : t) (size : Py.value) : M world unit :=
  let command_args :=
    ["/sbin/lvresize"; "--size"; Py.str size +:+ "M"; get_path self None] in
  try_except
    (System.runCommand host command_args true;; ret tt)
    (wrap_command_error
       ("Error whilst resizing disk logical volume:" +:+ newline)).

(** How Python binds the positional arguments [args] and the keyword
    arguments [kwargs] of a call of [volume.resize] to the parameters of
    [def resize(self, size)]: too many
    positional arguments, a keyword the function does not have, a
    parameter given twice or not at all are each a [TypeError]. *)
Definition resize_arguments (args : list Py.value)
  (kwargs : list (string * Py.value)) : Py.exn + Py.value :=
  if Nat.ltb 1 (length args) then
    inl (Py.TypeError ("resize() takes exactly 2 arguments ("
                       +:+ pretty (S (length args + length kwargs))
                       +:+ " given)"))
  else
    match List.find (λ kv, negb (String.eqb kv.1 "size")) kwargs with
    | Some kv =>
        inl (Py.TypeError ("resize() got an unexpected keyword argument '"
                           +:+ kv.1 +:+ "'"))
    | None =>
        match args, kwargs with
        | [size], [] => inr size
        | [], [(_, size)] => inr size
        | [], [] =>
            inl (Py.TypeError "resize() takes exactly 2 arguments (1 given)")
        | _, _ =>
            inl (Py.TypeError
                   "resize() got multiple values for keyword argument 'size'")
        end
    end.

(** A call of [volume.resize] with positional arguments [args] and keyword
    arguments [kwargs]. *)
Definition call_resize (host : Host) (self : t) (args : list Py.value)
  (kwargs : list (string * Py.value)) : M world unit :=
  size ← lift (resize_arguments args kwargs);
  resize host self size.

(** [get_size()]: the size in megabytes, the digits before the dot. *)
Definition get_size (host : Host) (self : t) : M world Z :=
  let command_args :=
    ["lvs"; "--nosuffix"; "--noheadings"; "--units"; "m"; "--options";
     "lv_size"; get_path self None] in
  r ← try_except
        (System.runCommand host command_args true)
        (wrap_command_error
           ("Error whilst obtaining the size of the logical volume:"
            +:+ newline));
  let command_output := stdout r in
  let lv_size :=
    string_of_list_ascii
      (Parse.before_dot (Parse.strip (list_ascii_of_string command_output))) in
  lift (Parse.int lv_size).

End LvmVolume.

(** ** [mcvirt.virtual_machine.hard_drive.local.Local] *)

Module Local.

(** What a local hard drive reads of its virtual machine, and the answer
    of the permission check for it: [assert_permission] is the exception
    [auth.assert_permission(PERMISSIONS.MODIFY_VM, vm_object)] raises, if
    any. *)
Record VirtualMachine : Type := {
  assert_permission : option Py.exn;
  is_stopped : bool;
  getCloneParent : option string;
  getCloneChildren : list string;
}.

(** A local hard drive object; [disk_name] is [base_volume_name]. *)
Record t : Type := {
  vm_object : VirtualMachine;
  disk_name : string;
  storage_backend : Lvm.t;
}.

(** The size argument of [increase_size]: an [int], or a text for
    [SizeConverter]. *)
Inductive size_argument : Type :=
  | SizeInt (n : Z)
  | SizeText (s : string).

Definition MAXIMUM_DEVICES : Z := 4.
Definition CACHE_MODE : string := "directsync".

(** [Local.isAvailable(storage_factory, node_drbd)], given
    [storage_factory.get_all(available_on_local_node=True)]. *)
Definition isAvailable (local_backends : list Lvm.t) : bool :=
  match local_backends with [] => false | _ => true end.

(** [_get_volume(name)] of the base class gives the backend's volume
    class, [LvmVolume] for [Lvm]. *)
Definition _get_volume (self : t) (name : string) : LvmVolume.t :=
  {| LvmVolume.name := name; LvmVolume.storage_backend := storage_backend self |}.

Definition _get_data_volume (self : t) : LvmVolume.t :=
  _get_volume self (disk_name self).

Definition _check_exists (host : Host) (self : t) : M world bool :=
  LvmVolume.check_exists host (_get_data_volume self).

(** [_ensure_exists] is in [hard_drive/base.py], which is not among the
    sources: the disk must exist ([_check_exists]) before any operation,
    else [HardDriveDoesNotExistException]. *)
Definition _ensure_exists (host : Host) (self : t) : M world unit :=
  e ← _check_exists host self;
  if (e : bool) then ret tt
  else raise (Py.HardDriveDoesNotExistException "Disk does not exist").

Section IncreaseSize.

(** [SizeConverter.from_string(s, storage=True).to_bytes()], from
    [mcvirt/size_converter.py]. *)
Variable to_bytes : string → Py.exn + Z.

(** [increase_size(increase_size)]. *)
Definition increase_size (host : Host) (self : t) (increase_size : size_argument)
  : M world unit :=
  match assert_permission (vm_object self) with
  | Some e => raise e
  | None =>
      increase_size ← match increase_size with
                      | SizeInt n => ret n
                      | SizeText s => lift (to_bytes s)
                      end;
      (* Ensure disk exists *)
      _ensure_exists host self;;
      (* Ensure VM is stopped *)
      if negb (is_stopped (vm_object self)) then
        raise (Py.VmAlreadyStartedException
                 "VM must be stopped before increasing disk size")
      else
        (* Ensure that VM has not been cloned and is not a clone *)
        if (bool_decide (is_Some (getCloneParent (vm_object self)))
            || negb (bool_decide (getCloneChildren (vm_object self) = [])))%bool
        then
          raise (Py.VmIsCloneException
                   "Cannot increase the disk of a cloned VM or a clone.")
        else
          (* Obtain volume for the disk and resize *)
          let volume := _get_data_volume self in
          LvmVolume.call_resize host volume [Py.Int increase_size]
            [("increase", Py.Int 1)]
  end.

End IncreaseSize.

Definition _removeStorage (host : Host) (self : t) : M world unit :=
  LvmVolume.delete host (_get_data_volume self) false.

Definition get_size (host : Host) (self : t) : M world Z :=
  LvmVolume.get_size host (_get_data_volume self).

Definition create (host : Host) (self : t) (size : Py.value) : M world unit :=
  LvmVolume.create host (_get_data_volume self) size.

Definition activateDisk (host : Host) (self : t) : M world unit :=
  _ensure_exists host self;;
  LvmVolume.activate host (_get_data_volume self).

Definition deactivateDisk (self : t) : M world unit :=
  LvmVolume.deactivate (_get_data_volume self).

(** [preMigrationChecks()]. *)
Definition preMigrationChecks (self : t) : M world unit :=
  if negb (Lvm.shared (storage_backend self)) then
    raise (Py.CannotMigrateLocalDiskException
             "VMs using local disks on a non-shared backend cannot be migrated")
  else ret tt.

Definition _getDiskPath (self : t) : string :=
  LvmVolume.get_path (_get_data_volume self) None.

End Local.

(** ** [mcvirt.virtual_machine.hard_drive.factory.Factory] *)

Module Factory.

(** The hard drive classes of [Factory.STORAGE_TYPES]. *)
Inductive hard_drive_class : Type := Local | Drbd.

#[global] Instance hard_drive_class_eq_dec : EqDecision hard_drive_class.
Proof. solve_decision. Defined.

(** [cls.__name__]. *)
Definition __name__ (c : hard_drive_class) : string :=
  match c with Local => "Local" | Drbd => "Drbd" end.

Definition STORAGE_TYPES : list hard_drive_class := [Local; Drbd].

(** What the factory reads of a virtual machine object: [get_name()] and
    the [storage_type] entry of [get_config_object().get_config()]. *)
Record VirtualMachine : Type := {
  get_name : string;
  config_storage_type : Py.value;
}.

(** A constructed hard drive object: its class and the constructor's
    arguments. *)
Record HardDrive : Type := {
  hd_class : hard_drive_class;
  hd_vm : VirtualMachine;
  hd_disk_id : Z;
  hd_config : gmap string Py.value;
}.

(** The key of [Factory.CACHED_OBJECTS]:
    [(vm_object.get_name(), disk_id, storage_type_key)]. *)
Abbreviation cache_key_t := (string * Z * Py.value)%type.

(** The process state the factory works on. Objects have identity: every
    constructed hard drive object is appended to [objects], and a
    reference to it is its index there.
      - [CACHED_OBJECTS] is the class attribute of that name;
      - [pyroDaemon] is [Some l] when the factory has a [_pyroDaemon]
        attribute ([_pyro_initialised]), [l] being the objects registered
        with the daemon, latest first. *)
Record state : Type := {
  CACHED_OBJECTS : gmap cache_key_t nat;
  objects : list HardDrive;
  pyroDaemon : option (list nat);
}.

Definition initial_state (daemon : bool) : state :=
  {| CACHED_OBJECTS := ∅; objects := [];
     pyroDaemon := if daemon then Some [] else None |}.

Definition set_cache (f : gmap cache_key_t nat → gmap cache_key_t nat)
  (s : state) : state :=
  {| CACHED_OBJECTS := f (CACHED_OBJECTS s); objects := objects s;
     pyroDaemon := pyroDaemon s |}.

(** [Factory.getStorageTypes]. *)
Definition getStorageTypes : list hard_drive_class := STORAGE_TYPES.

(** [Factory.getClass]: the first class whose name equals [storage_type],
    else [UnknownStorageTypeException]. *)
Fixpoint getClass_loop (storage_type : Py.value) (l : list hard_drive_class)
  : Py.exn + hard_drive_class :=
  match l with
  | [] => inl (Py.UnknownStorageTypeException
                 ("Attempted to initialise an unknown storage type: "
                  +:+ Py.str storage_type))
  | hard_drive_class :: l' =>
      if decide (storage_type = Py.Str (__name__ hard_drive_class))
      then inr hard_drive_class
      else getClass_loop storage_type l'
  end.

Definition getClass (storage_type : Py.value) : Py.exn + hard_drive_class :=
  getClass_loop storage_type getStorageTypes.

(** [PyroObject._register_object]: registers with the daemon when there is
    one. *)
Definition _register_object (local_object : nat) : M state unit :=
  modify (λ s,
    {| CACHED_OBJECTS := CACHED_OBJECTS s; objects := objects s;
       pyroDaemon := match pyroDaemon s with
                     | Some l => Some (local_object :: l)
                     | None => None
                     end |}).

(** Lines 48-59 of [getObject]: the storage type the lookup works with,
    and the overrides left once [storage_type] has been taken out. *)
Definition resolve_storage_type (vm_object : VirtualMachine)
  (config : gmap string Py.value) : Py.value * gmap string Py.value :=
  let storage_type := Py.None_ in
  (* Default to storage type in vm config, if defined *)
  let storage_type :=
    if Py.truthy (config_storage_type vm_object)
    then config_storage_type vm_object else storage_type in
  match config !! "storage_type" with
  | Some v =>
      ((if Py.is_None storage_type then v else storage_type),
       delete "storage_type" config)
  | None => (storage_type, config)
  end.

Definition cache_key (vm_object : VirtualMachine) (disk_id : Z)
  (config : gmap string Py.value) : cache_key_t :=
  let storage_type := (resolve_storage_type vm_object config).1 in
  let storage_type_key := Py.or_ storage_type (Py.Str "") in
  (get_name vm_object, disk_id, storage_type_key).

Section GetObject.

(** The constructors of the hard drive classes are in
    [hard_drive/base.py]: [init cls vm disk_id config] is the exception the
    call [cls(vm_object=vm, disk_id=disk_id, **config)] raises, if any. *)
Variable init : hard_drive_class → VirtualMachine → Z →
                gmap string Py.value → option Py.exn.

(** [cls(vm_object=..., disk_id=..., **config)]: a new object, with a
    reference no earlier object has. *)
Definition construct (cls : hard_drive_class) (vm_object : VirtualMachine)
  (disk_id : Z) (config : gmap string Py.value) : M state nat :=
  match init cls vm_object disk_id config with
  | Some e => raise e
  | None =>
      λ s, (inr (length (objects s)),
            {| CACHED_OBJECTS := CACHED_OBJECTS s;
               objects := objects s ++
                 [{| hd_class := cls; hd_vm := vm_object;
                     hd_disk_id := disk_id; hd_config := config |}];
               pyroDaemon := pyroDaemon s |})
  end.

(** [Factory.CACHED_OBJECTS[cache_key]]. *)
Definition cached (key : cache_key_t) : M state nat :=
  s ← get;
  match CACHED_OBJECTS s !! key with
  | Some o => ret o
  | None => raise (Py.KeyError "cache_key")
  end.

(** [Factory.getObject(vm_object, disk_id, **config)]. [vm_object] is the
    local instance [_convert_remote_object] yields. *)
Definition getObject (vm_object : VirtualMachine) (disk_id : Z)
  (config : gmap string Py.value) : M state nat :=
  let '(storage_type, config) := resolve_storage_type vm_object config in
  (* Create cache key, based on name of VM, disk ID and storage type *)
  let storage_type_key := Py.or_ storage_type (Py.Str "") in
  let cache_key := (get_name vm_object, disk_id, storage_type_key) in
  (* If configuring overrides have been used, do not cache the object. *)
  let disable_cache := negb (Nat.eqb (size config) 0) in
  (if disable_cache
   then modify (set_cache (λ c, if decide (is_Some (c !! cache_key))
                                then delete cache_key c else c))
   else ret tt);;
  s ← get;
  match CACHED_OBJECTS s !! cache_key with
  | None =>
      cls ← lift (getClass storage_type);
      hard_drive_object ← construct cls vm_object disk_id config;
      _register_object hard_drive_object;;
      if disable_cache then ret hard_drive_object
      else
        modify (set_cache (λ c, <[cache_key := hard_drive_object]> c));;
        cached cache_key
  | Some _ => cached cache_key
  end.

End GetObject.

(** *** [Factory.ensure_hdd_valid] *)

(** What [ensure_hdd_valid] asks of the other components of the node:
      - [local_backends]: [storage_factory.get_all(available_on_local_node=True)];
      - [Drbd_isAvailable]: [Drbd.isAvailable(storage_factory, node_drbd)],
        of [hard_drive/drbd.py];
      - [get_all nodes drbd]: [storage_factory.get_all(nodes=nodes, drbd=drbd)];
      - [_is_cluster_master]: the attribute of that name;
      - [get_local_hostname]: [cluster.get_local_hostname()];
      - [remote_ensure_hdd_valid]: the exception the other node's
        [ensure_hdd_valid] raises for a validation sent to it, if any. *)
Record Node : Type := {
  local_backends : list Lvm.t;
  Drbd_isAvailable : bool;
  get_all : list string → bool → list Lvm.t;
  _is_cluster_master : bool;
  get_local_hostname : string;
  remote_ensure_hdd_valid : RemoteValidation → option Py.exn;
}.

(** [storage_type.isAvailable(storage_factory, node_drbd)]. *)
Definition isAvailable (node : Node) (storage_type : hard_drive_class) : bool :=
  match storage_type with
  | Local => Local.isAvailable (local_backends node)
  | Drbd => Drbd_isAvailable node
  end.

(** [Factory._getAvailableStorageTypes]. *)
Definition _getAvailableStorageTypes (node : Node) : list hard_drive_class :=
  List.filter (isAvailable node) STORAGE_TYPES.

(** Modelled from the spec: [cluster.run_remote_command] of
    [mcvirt/cluster/cluster.py], which is not among the sources: "invokes
    a callback, parameterized with a per-node connection, against each
    listed node, surfacing the first remote error". The nodes are taken
    one after the other here; the specification leaves open whether they
    are, so no property below rests on the order of the calls or on the
    calls that follow a refusal. *)
Fixpoint run_remote_command (callback_method : string → M world unit)
  (nodes : list string) : M world unit :=
  match nodes with
  | [] => ret tt
  | node :: nodes' =>
      callback_method node;; run_remote_command callback_method nodes'
  end.

Section EnsureHddValid.

Variable host : Host.
Variable node : Node.

(** Lines 92-106: the storage type asked for, if the node has it, else
    the only one the node has. *)
Definition select_storage_type (storage_type : Py.value) : M world Py.value :=
  let available_storage_types := _getAvailableStorageTypes node in
  if Py.truthy storage_type then
    if negb (bool_decide
               (storage_type ∈
                  List.map (λ available_storage, Py.Str (__name__ available_storage))
                    available_storage_types))
    then raise (Py.UnknownStorageTypeException
                  (Py.str storage_type +:+ " is not supported by node "
                   +:+ get_hostname host))
    else ret storage_type
  else
    (* Otherwise, if no storage type has been defined, ensure that there
       is only 1 avilable storage type. *)
    if Nat.ltb 1 (length available_storage_types) then
      raise (Py.UnknownStorageTypeException "Storage type must be specified")
    else
      match available_storage_types with
      | [only] => ret (Py.Str (__name__ only))
      | _ => raise (Py.UnknownStorageTypeException
                      "There are no storage types available")
      end.

(** Lines 109-124: the storage backend given, if it is available on the
    node, else the only one for the storage type and the nodes. *)
Definition select_storage_backend (storage_type : Py.value)
  (nodes : list string) (storage_backend : option Lvm.t) : M world Lvm.t :=
  match storage_backend with
  | Some storage_backend =>
      match Lvm.ensure_available_on_node storage_backend with
      | Some e => raise e
      | None => ret storage_backend
      end
  | None =>
      let available_storage_backends :=
        get_all node nodes
          (bool_decide (storage_type = Py.Str (__name__ Drbd))) in
      if Nat.ltb 1 (length available_storage_backends) then
        raise (Py.UnknownStorageBackendException
                 "Storage backend must be specified")
      else
        match available_storage_backends with
        | [only] => ret only
        | _ => raise (Py.UnknownStorageBackendException
                        "There are no available storage backends")
        end
  end.

(** The message of line 128: [%i] prints the int [size] and the whole
    part of the float [free]; the message is not built when [free] cannot
    be printed so. *)
Definition insufficient_space_message (size : Z) (free : Parse.binary64)
  : Py.exn + string :=
  match Parse.format_i free with
  | inl e => inl e
  | inr shown =>
      inr ("Attempted to create a disk with " +:+ pretty size
           +:+ " MiB, but there is only " +:+ shown
           +:+ " MiB of free space available on node "
           +:+ get_hostname host +:+ ".")
  end.

(** Lines 126-130. *)
Definition check_free_space (size : Z) (storage_backend : Lvm.t)
  : M world unit :=
  free ← Lvm.get_free_space host storage_backend;
  if Parse.lt_int free size then
    message ← lift (insufficient_space_message size free);
    raise (Py.InsufficientSpaceException message)
  else ret tt.

(** The callback of lines 133-141, for the connection to [remote]: the
    other node validates with its own backend object of the same name. *)
Definition remote_command (size : Z) (storage_type : Py.value)
  (nodes : list string) (storage_backend : Lvm.t) (remote : string)
  : M world unit :=
  let call := {| rv_node := remote; rv_size := size;
                 rv_storage_type := storage_type; rv_nodes := nodes;
                 rv_storage_backend := Lvm.name storage_backend |} in
  modify (λ w, {| executed := executed w;
                  dispatched := dispatched w ++ [call] |});;
  match remote_ensure_hdd_valid node call with
  | Some e => raise e
  | None => ret tt
  end.

(** [Factory.ensure_hdd_valid(size, storage_type, nodes, storage_backend)]. *)
Definition ensure_hdd_valid (size : Z) (storage_type : Py.value)
  (nodes : list string) (storage_backend : option Lvm.t) : M world Py.value :=
  storage_type ← select_storage_type storage_type;
  storage_backend ← select_storage_backend storage_type nodes storage_backend;
  check_free_space size storage_backend;;
  (if _is_cluster_master node then
     let remote_nodes :=
       List.filter (λ n, negb (String.eqb n (get_local_hostname node)))
         nodes in
     run_remote_command
       (remote_command size storage_type nodes storage_backend) remote_nodes
   else ret tt);;
  ret storage_type.

End EnsureHddValid.

(** *** [Factory.create] *)

(** What [create] reads of the virtual machine it is given, and the answer
    of the permission check for it: [modify_permission] is the exception
    [auth.assert_permission(PERMISSIONS.MODIFY_VM, vm_object)] raises, if
    any. *)
Record DiskOwner : Type := {
  modify_permission : option Py.exn;
  getAvailableNodes : list string;
  getStorageType : Py.value;
}.

Section Create.

Variable host : Host.
Variable node : Node.

(** The constructors of the hard drive classes are in
    [hard_drive/base.py], and [Drbd.create] in [hard_drive/drbd.py]:
    [new_Local vm driver storage_backend] is what the call
    [Local(vm_object=vm, driver=driver, storage_backend=storage_backend)]
    gives, the new object or the exception raised; [new_Drbd] likewise
    gives what the [create(size)] method of the new [Drbd] object does. *)
Variable new_Local : DiskOwner → Py.value → option Lvm.t → Py.exn + Local.t.
Variable new_Drbd : DiskOwner → Py.value → option Lvm.t →
                    Py.exn + (Z → M world unit).

(** [Factory.create(vm_object, size, storage_type, driver,
    storage_backend=None)], for what it does on the node; the result is
    the class of the object it returns. [vm_object] is the local instance
    [_convert_remote_object] yields, and the registration of the new
    object with the daemon, which leaves the node as it is, has no part
    here. *)
Definition create (vm_object : DiskOwner) (size : Z) (storage_type : Py.value)
  (driver : Py.value) (storage_backend : option Lvm.t)
  : M world hard_drive_class :=
  (* Ensure that the user has permissions to add create storage *)
  match modify_permission vm_object with
  | Some e => raise e
  | None =>
      let nodes := getAvailableNodes vm_object in
      storage_type ←
        ensure_hdd_valid host node size storage_type nodes storage_backend;
      (* Ensure the VM storage type matches the storage type passed in *)
      (if Py.truthy (getStorageType vm_object) then
         if (Py.truthy storage_type
             && negb (bool_decide (storage_type = getStorageType vm_object)))%bool
         then raise (Py.UnknownStorageTypeException
                       "Storage type does not match VMs current storage type")
         else ret tt
       else ret tt);;
      cls ← lift (getClass storage_type);
      match cls with
      | Local =>
          hdd_object ← lift (new_Local vm_object driver storage_backend);
          Local.create host hdd_object (Py.Int size);;
          ret Local
      | Drbd =>
          hdd_create ← lift (new_Drbd vm_object driver storage_backend);
          hdd_create size;;
          ret Drbd
      end
  end.

End Create.

(** *** [Factory.getDrbdObjectByResourceName] *)

(** A Drbd hard drive object, for its [resource_name]; [drbd_object]
    tells the objects apart. *)
Record DrbdHardDrive : Type := {
  drbd_object : nat;
  resource_name : string;
}.

(** [Factory.getDrbdObjectByResourceName(resource_name)], given
    [node_drbd.get_all_drbd_hard_drive_object()]. *)
Fixpoint getDrbdObjectByResourceName
  (all_drbd_hard_drive_object : list DrbdHardDrive) (name : string)
  : Py.exn + DrbdHardDrive :=
  match all_drbd_hard_drive_object with
  | [] => inl (Py.HardDriveDoesNotExistException
                 ("Drbd hard drive with resource name '" +:+ name
                  +:+ "' does not exist"))
  | hard_drive_object :: rest =>
      if String.eqb (resource_name hard_drive_object) name
      then inr hard_drive_object
      else getDrbdObjectByResourceName rest name
  end.


End Factory.

(** ** [mcvirt.client.rpc.Connection] *)

Module Connection.

(** A connection, for the attributes [__username] and [__session_id]. *)
Record t : Type := {
  username : Py.value;
  session_id : Py.value;
}.

(** [Connection._getAuthObj(password=None)]: the handshake dictionary. *)
Definition _getAuthObj (self : t) (password : Py.value)
  : gmap string Py.value :=
  let auth_dict : gmap string Py.value := {[ "USER" := username self ]} in
  if Py.truthy password then <["PASS" := password]> auth_dict
  else if Py.truthy (session_id self)
       then <["SEID" := session_id self]> auth_dict
       else auth_dict.

End Connection.

(** * Vocabulary of the properties *)

Module FactorySpec.
Import Factory.

(** The state after a hard drive object was constructed and registered. *)
Definition constructed (cls : hard_drive_class) (vm_object : VirtualMachine)
  (disk_id : Z) (config : gmap string Py.value) (s : state) : state :=
  {| CACHED_OBJECTS := CACHED_OBJECTS s;
     objects := objects s ++
       [{| hd_class := cls; hd_vm := vm_object; hd_disk_id := disk_id;
           hd_config := config |}];
     pyroDaemon := match pyroDaemon s with
                   | Some l => Some (length (objects s) :: l)
                   | None => None
                   end |}.

(** Whether constructing the object of a lookup raises [e]: the class is
    unknown, or its constructor raises. *)
Definition construction_raises
  (init : hard_drive_class → VirtualMachine → Z → gmap string Py.value →
          option Py.exn)
  (vm_object : VirtualMachine) (disk_id : Z) (config : gmap string Py.value)
  (e : Py.exn) : Prop :=
  match getClass (resolve_storage_type vm_object config).1 with
  | inl e' => e' = e
  | inr cls =>
      init cls vm_object disk_id (resolve_storage_type vm_object config).2
      = Some e
  end.

(** The states a process reaches from [s] by calls of [getObject]. *)
Inductive calls
  (init : hard_drive_class → VirtualMachine → Z → gmap string Py.value →
          option Py.exn) (s : state) : state → Prop :=
  | calls_refl : calls init s s
  | calls_step s' vm_object disk_id config :
      calls init s s' →
      calls init s (getObject init vm_object disk_id config s').2.

(** Every cached reference is a constructed object. *)
Definition cache_allocated (s : state) : Prop :=
  ∀ k o, CACHED_OBJECTS s !! k = Some o → (o < length (objects s))%nat.

(** The five ways a call of [getObject] can go. *)
Inductive outcome (s : state) (vm : VirtualMachine) (d : Z)
  (cfg : gmap string Py.value) : Py.exn + nat → state → Prop :=
  | outcome_hit o :
      CACHED_OBJECTS s !! cache_key vm d cfg = Some o →
      outcome s vm d cfg (inr o) s
  | outcome_stored cls :
      outcome s vm d cfg (inr (length (objects s)))
        (set_cache (λ c, <[cache_key vm d cfg := length (objects s)]> c)
           (constructed cls vm d ∅ s))
  | outcome_fresh cls :
      outcome s vm d cfg (inr (length (objects s)))
        (set_cache (delete (cache_key vm d cfg))
           (constructed cls vm d (resolve_storage_type vm cfg).2 s))
  | outcome_raised e :
      outcome s vm d cfg (inl e) s
  | outcome_evicted e :
      outcome s vm d cfg (inl e) (set_cache (delete (cache_key vm d cfg)) s).

End FactorySpec.

(** ** Sample inputs *)

Module Examples.

(** A virtual machine whose configuration says [Local]. *)
Definition vm1 : Factory.VirtualMachine :=
  {| Factory.get_name := "vm1";
     Factory.config_storage_type := Py.Str "Local" |}.

(** Constructors that accept every argument. *)
Definition init_any : Factory.hard_drive_class → Factory.VirtualMachine → Z →
                      gmap string Py.value → option Py.exn :=
  λ _ _ _ _, None.

(** Constructors that have no parameter [bogus]. *)
Definition init_strict : Factory.hard_drive_class → Factory.VirtualMachine →
                         Z → gmap string Py.value → option Py.exn :=
  λ _ _ _ config,
    match config !! "bogus" with
    | Some _ => Some (Py.TypeError
        "__init__() got an unexpected keyword argument 'bogus'")
    | None => None
    end.

(** The state after a first lookup of disk 1 of [vm1]. *)
Definition one_cached : Factory.state :=
  (Factory.getObject init_strict vm1 1 ∅ (Factory.initial_state true)).2.

End Examples.

(** ** Decimal numerals *)

Module Numeral.

(** The character of the digit [d]. *)
Definition digit_char (d : nat) : ascii := ascii_of_nat (48 + d).

(** The text of the digits [ds], most significant first. *)
Definition text (ds : list nat) : list ascii := map digit_char ds.

(** The number the digits [ds] write. *)
Definition value (ds : list nat) : Z := Parse.number (map Z.of_nat ds).

Definition digits (ds : list nat) : Prop := Forall (λ d, (d < 10)%nat) ds.

Definition blanks (l : list ascii) : Prop :=
  Forall (λ c, Parse.is_space c = true) l.

(** The report [lead ip . fp trail]: a number with integer digits [ip] and
    fraction digits [fp], between blanks. *)
Definition report (lead : list ascii) (ip fp : list nat) (trail : list ascii)
  : string :=
  string_of_list_ascii (lead ++ text ip ++ "."%char :: text fp ++ trail).

End Numeral.

(** ** The commands of the LVM operations *)

Module Command.

Definition vgs_free (backend : Lvm.t) : list string :=
  ["vgs"; Lvm.get_location backend None; "-o"; "free"; "--noheadings";
   "--nosuffix"; "--units"; "m"].

Definition lvcreate (self : LvmVolume.t) (size : Py.value) : list string :=
  ["/sbin/lvcreate"; Lvm.get_location (LvmVolume.storage_backend self) None;
   "--name"; LvmVolume.name self; "--size"; Py.str size +:+ "M"].

Definition lvremove (self : LvmVolume.t) : list string :=
  ["lvremove"; "-f"; LvmVolume.get_path self None].

Definition lvchange (self : LvmVolume.t) : list string :=
  ["lvchange"; "-a"; "y"; "--yes"; LvmVolume.get_path self None].

Definition lvsnapshot (self destination_volume : LvmVolume.t) (size : string)
  : list string :=
  ["lvcreate"; "--snapshot"; LvmVolume.get_path self None;
   "--name"; LvmVolume.name destination_volume; "--size"; size].

Definition lvresize (self : LvmVolume.t) (size : Py.value) : list string :=
  ["/sbin/lvresize"; "--size"; Py.str size +:+ "M";
   LvmVolume.get_path self None].

Definition lvs_size (self : LvmVolume.t) : list string :=
  ["lvs"; "--nosuffix"; "--noheadings"; "--units"; "m"; "--options";
   "lv_size"; LvmVolume.get_path self None].

(** The world once [argv] has been executed. *)
Definition after (w : world) (argv : list string) : world :=
  {| executed := executed w ++ [argv]; dispatched := dispatched w |}.

End Command.

(** ** Sample nodes, backends and disks *)

Module StorageExamples.

(** A volume group that is not shared, and one that is. *)
Definition vg0 : Lvm.t :=
  {| Lvm.name := "default"; Lvm.get_location := λ _, "vg0";
     Lvm.shared := false; Lvm.ensure_available_on_node := None |}.

Definition san : Lvm.t :=
  {| Lvm.name := "san"; Lvm.get_location := λ _, "vg_san";
     Lvm.shared := true; Lvm.ensure_available_on_node := None |}.

(** A node on which every command succeeds and prints [  12.50], and
    every path exists. *)
Definition host_ok : Host :=
  {| tool := λ _ _, {| exit_code := 0; stdout := "  12.50" +:+ newline;
                       stderr := "" |};
     failure_text := λ argv r, "Command failed: " +:+ stderr r;
     lexists := λ _ _, true;
     get_hostname := "node1" |}.

(** A node on which every command fails with exit code 5, and no path
    exists. *)
Definition host_failing : Host :=
  {| tool := λ _ _, {| exit_code := 5; stdout := "";
                       stderr := "Volume group has insufficient free space" |};
     failure_text := λ argv r, "Command failed: " +:+ stderr r;
     lexists := λ _ _, false;
     get_hostname := "node1" |}.

(** The cluster master [node1] of a two-node cluster, with local storage
    on [vg0] only. *)
Definition node1 : Factory.Node :=
  {| Factory.local_backends := [vg0];
     Factory.Drbd_isAvailable := false;
     Factory.get_all := λ _ _, [vg0];
     Factory._is_cluster_master := true;
     Factory.get_local_hostname := "node1";
     Factory.remote_ensure_hdd_valid := λ _, None |}.

Definition volume : LvmVolume.t :=
  {| LvmVolume.name := "mcvirt_vm-vm1-disk-1";
     LvmVolume.storage_backend := vg0 |}.

Definition snapshot_volume : LvmVolume.t :=
  {| LvmVolume.name := "mcvirt_vm-vm1-disk-1_snapshot";
     LvmVolume.storage_backend := vg0 |}.

(** A stopped virtual machine that is no clone and has none, whose user
    may modify it. *)
Definition stopped_vm : Local.VirtualMachine :=
  {| Local.assert_permission := None; Local.is_stopped := true;
     Local.getCloneParent := None; Local.getCloneChildren := [] |}.

Definition disk : Local.t :=
  {| Local.vm_object := stopped_vm;
     Local.disk_name := "mcvirt_vm-vm1-disk-1";
     Local.storage_backend := vg0 |}.

Definition shared_disk : Local.t :=
  {| Local.vm_object := stopped_vm;
     Local.disk_name := "mcvirt_vm-vm1-disk-1";
     Local.storage_backend := san |}.

Definition to_bytes : string → Py.exn + Z :=
  λ s, inl (Py.ValueError s).

End StorageExamples.

(** ** Invariants of the object cache *)

Module CacheSpec.
Import Factory.

(** Every cache entry points to an object that was constructed for its
    key: same virtual machine name and disk, the class the key names, and
    no overrides. *)
Definition cache_matches (s : state) : Prop :=
  ∀ name d t o,
    CACHED_OBJECTS s !! (name, d, t) = Some o →
    ∃ hd, objects s !! o = Some hd ∧
          get_name (hd_vm hd) = name ∧ hd_disk_id hd = d ∧
          t = Py.Str (__name__ (hd_class hd)) ∧ hd_config hd = ∅.

End CacheSpec.

(** ** The validations a cluster master sends *)

Module FanOut.

(** The validation sent to [remote]. *)
Definition call (size : Z) (storage_type : Py.value) (nodes : list string)
  (storage_backend : Lvm.t) (remote : string) : RemoteValidation :=
  {| rv_node := remote; rv_size := size; rv_storage_type := storage_type;
     rv_nodes := nodes; rv_storage_backend := Lvm.name storage_backend |}.

(** The nodes of [nodes] other than the local one, in order. *)
Definition remote_nodes (node : Factory.Node) (nodes : list string)
  : list string :=
  List.filter (λ n, negb (String.eqb n (Factory.get_local_hostname node)))
    nodes.

(** The world once the free space was queried and the validations for
    [remotes] were sent. *)
Definition validated (w : world) (size : Z) (storage_type : Py.value)
  (nodes : list string) (storage_backend : Lvm.t) (remotes : list string)
  : world :=
  {| executed := executed w ++ [Command.vgs_free storage_backend];
     dispatched := dispatched w ++
       map (call size storage_type nodes storage_backend) remotes |}.

End FanOut.





(** ** More sample inputs *)

Module MoreExamples.

(** A virtual machine whose configuration has no storage type. *)
Definition vm_untyped : Factory.VirtualMachine :=
  {| Factory.get_name := "vm2"; Factory.config_storage_type := Py.None_ |}.

(** The state after a lookup of disk 1 of [vm1] and then one with an
    override. *)
Definition two_lookups : Factory.state :=
  (Factory.getObject Examples.init_strict Examples.vm1 1
     {[ "driver" := Py.Str "virtio" ]} Examples.one_cached).2.

(** A node on which every command succeeds and prints [150.00]. *)
Definition host_150 : Host :=
  {| tool := λ _ _, {| exit_code := 0; stdout := "  150.00" +:+ newline;
                       stderr := "" |};
     failure_text := λ argv r, "Command failed: " +:+ stderr r;
     lexists := λ _ _, true;
     get_hostname := "node1" |}.

(** A node on which every command succeeds and prints nothing. *)
Definition host_silent : Host :=
  {| tool := λ _ _, {| exit_code := 0; stdout := ""; stderr := "" |};
     failure_text := λ argv r, "Command failed: " +:+ stderr r;
     lexists := λ _ _, true;
     get_hostname := "node1" |}.

(** A node on which every command succeeds, and a path exists until a
    command has run. *)
Definition host_removing : Host :=
  {| tool := λ _ _, {| exit_code := 0; stdout := ""; stderr := "" |};
     failure_text := λ argv r, "Command failed: " +:+ stderr r;
     lexists := λ history _, match history with [] => true | _ => false end;
     get_hostname := "node1" |}.

(** A node for which no storage backend is found. *)
Definition node_without_backend : Factory.Node :=
  {| Factory.local_backends := [StorageExamples.vg0];
     Factory.Drbd_isAvailable := false;
     Factory.get_all := λ _ _, [];
     Factory._is_cluster_master := false;
     Factory.get_local_hostname := "node1";
     Factory.remote_ensure_hdd_valid := λ _, None |}.

(** The cluster master [node1], whose peer [node2] refuses every
    validation. *)
Definition node_with_full_peer : Factory.Node :=
  {| Factory.local_backends := [StorageExamples.vg0];
     Factory.Drbd_isAvailable := false;
     Factory.get_all := λ _ _, [StorageExamples.vg0];
     Factory._is_cluster_master := true;
     Factory.get_local_hostname := "node1";
     Factory.remote_ensure_hdd_valid := λ rv,
       if String.eqb (rv_node rv) "node2"
       then Some (Py.InsufficientSpaceException "node2 is full")
       else None |}.

(** A running virtual machine and its disk. *)
Definition running_vm : Local.VirtualMachine :=
  {| Local.assert_permission := None; Local.is_stopped := false;
     Local.getCloneParent := None; Local.getCloneChildren := [] |}.

Definition running_disk : Local.t :=
  {| Local.vm_object := running_vm;
     Local.disk_name := "mcvirt_vm-vm1-disk-1";
     Local.storage_backend := StorageExamples.vg0 |}.

(** A virtual machine on two nodes without a storage type yet, and one
    that already uses [Drbd]. *)
Definition new_owner : Factory.DiskOwner :=
  {| Factory.modify_permission := None;
     Factory.getAvailableNodes := ["node1"; "node2"];
     Factory.getStorageType := Py.None_ |}.

Definition drbd_owner : Factory.DiskOwner :=
  {| Factory.modify_permission := None;
     Factory.getAvailableNodes := ["node1"; "node2"];
     Factory.getStorageType := Py.Str "Drbd" |}.

Definition new_Local : Factory.DiskOwner → Py.value → option Lvm.t →
                       Py.exn + Local.t :=
  λ _ _ _, inr StorageExamples.disk.

Definition new_Drbd : Factory.DiskOwner → Py.value → option Lvm.t →
                      Py.exn + (Z → M world unit) :=
  λ _ _ _, inl Py.NotImplementedError.

End MoreExamples.

(** * Properties *)

Ltac run_getObject :=
  cbn [negb Nat.eqb];
  cbv [mbind M_bind bind ret get Factory.cached lift Factory.construct
       Factory._register_object modify raise Factory.set_cache
       FactorySpec.constructed];
  cbn [Factory.CACHED_OBJECTS Factory.objects Factory.pyroDaemon fst snd].


Section GetObjectFacts.
Import Factory FactorySpec.

Variable init : hard_drive_class → VirtualMachine → Z →
                gmap string Py.value → option Py.exn.

Implicit Types (s : state) (vm : VirtualMachine) (d : Z).
Implicit Types (cfg : gmap string Py.value) (o : nat).

Lemma resolve_overrides vm cfg :
  (resolve_storage_type vm cfg).2 = delete "storage_type" cfg.
Proof.
  unfold resolve_storage_type.
  destruct (cfg !! "storage_type") eqn:E; simpl; [done|].
  symmetry. by apply delete_id.
Qed.

Lemma resolve_chosen vm cfg :
  (resolve_storage_type vm cfg).1 =
    if Py.truthy (config_storage_type vm) then config_storage_type vm
    else default Py.None_ (cfg !! "storage_type").
Proof.
  unfold resolve_storage_type.
  destruct (Py.truthy (config_storage_type vm)) eqn:T;
    destruct (cfg !! "storage_type") eqn:E; simpl; try done.
  by destruct (config_storage_type vm).
Qed.

Lemma evict_eq (key : cache_key_t) (c : gmap cache_key_t nat) :
  (if decide (is_Some (c !! key)) then delete key c else c) = delete key c.
Proof.
  case_decide as H; [done|].
  symmetry. apply delete_id. by apply eq_None_not_Some.
Qed.

Lemma size_zero cfg : Nat.eqb (size cfg) 0 = true ↔ cfg = ∅.
Proof. rewrite Nat.eqb_eq. apply map_size_empty_iff. Qed.

Lemma getObject_hit s vm d cfg o :
  (resolve_storage_type vm cfg).2 = ∅ →
  CACHED_OBJECTS s !! cache_key vm d cfg = Some o →
  getObject init vm d cfg s = (inr o, s).
Proof.
  unfold getObject, cache_key.
  destruct (resolve_storage_type vm cfg) as [st cfg'] eqn:R. simpl.
  intros -> Hc.
  rewrite map_size_empty. run_getObject. by rewrite !Hc.
Qed.

Lemma getObject_miss s vm d cfg cls :
  (resolve_storage_type vm cfg).2 = ∅ →
  CACHED_OBJECTS s !! cache_key vm d cfg = None →
  getClass (resolve_storage_type vm cfg).1 = inr cls →
  init cls vm d ∅ = None →
  getObject init vm d cfg s =
    (inr (length (objects s)),
     set_cache (λ c, <[cache_key vm d cfg := length (objects s)]> c)
       (constructed cls vm d ∅ s)).
Proof.
  unfold getObject, cache_key.
  destruct (resolve_storage_type vm cfg) as [st cfg'] eqn:R. simpl.
  intros -> Hc Hcls Hinit.
  rewrite map_size_empty. run_getObject. rewrite Hc, Hcls, Hinit.
  by rewrite lookup_insert_eq.
Qed.

Lemma getObject_override s vm d cfg cls :
  (resolve_storage_type vm cfg).2 ≠ ∅ →
  getClass (resolve_storage_type vm cfg).1 = inr cls →
  init cls vm d (resolve_storage_type vm cfg).2 = None →
  getObject init vm d cfg s =
    (inr (length (objects s)),
     set_cache (delete (cache_key vm d cfg))
       (constructed cls vm d (resolve_storage_type vm cfg).2 s)).
Proof.
  unfold getObject, cache_key.
  destruct (resolve_storage_type vm cfg) as [st cfg'] eqn:R. simpl.
  intros Hne Hcls Hinit.
  destruct (Nat.eqb (size cfg') 0) eqn:Hsz; [by apply size_zero in Hsz|].
  run_getObject. rewrite evict_eq, lookup_delete_eq, Hcls, Hinit.
  done.
Qed.

Lemma getObject_override_raise s vm d cfg e :
  (resolve_storage_type vm cfg).2 ≠ ∅ →
  construction_raises init vm d cfg e →
  getObject init vm d cfg s =
    (inl e, set_cache (delete (cache_key vm d cfg)) s).
Proof.
  unfold getObject, cache_key, construction_raises.
  destruct (resolve_storage_type vm cfg) as [st cfg'] eqn:R. simpl.
  intros Hne Hraise.
  destruct (Nat.eqb (size cfg') 0) eqn:Hsz; [by apply size_zero in Hsz|].
  run_getObject. rewrite evict_eq, lookup_delete_eq.
  destruct (getClass st) as [e'|cls]; [by subst|].
  by rewrite Hraise.
Qed.

End GetObjectFacts.

Section GetObjectInvariants.
Import Factory FactorySpec.

Variable init : hard_drive_class → VirtualMachine → Z →
                gmap string Py.value → option Py.exn.

Implicit Types (s : state) (vm : VirtualMachine) (d : Z).
Implicit Types (cfg : gmap string Py.value) (o : nat).

Lemma getObject_miss_raise s vm d cfg e :
  (resolve_storage_type vm cfg).2 = ∅ →
  CACHED_OBJECTS s !! cache_key vm d cfg = None →
  construction_raises init vm d cfg e →
  getObject init vm d cfg s = (inl e, s).
Proof.
  unfold getObject, cache_key, construction_raises.
  destruct (resolve_storage_type vm cfg) as [st cfg'] eqn:R. simpl.
  intros -> Hc Hraise.
  rewrite map_size_empty. run_getObject. rewrite Hc.
  destruct (getClass st) as [e'|cls]; [by subst|].
  by rewrite Hraise.
Qed.

Lemma construction_cases vm d cfg :
  (∃ e, construction_raises init vm d cfg e) ∨
  (∃ cls, getClass (resolve_storage_type vm cfg).1 = inr cls ∧
          init cls vm d (resolve_storage_type vm cfg).2 = None).
Proof.
  unfold construction_raises.
  destruct (getClass _) as [e|cls]; [left; by exists e|].
  destruct (init cls vm d _) as [e|] eqn:E; [left; by exists e|].
  right. by exists cls.
Qed.

Lemma getObject_outcome s vm d cfg :
  outcome s vm d cfg (getObject init vm d cfg s).1 (getObject init vm d cfg s).2.
Proof.
  destruct (decide ((resolve_storage_type vm cfg).2 = ∅)) as [He|Hne].
  - destruct (CACHED_OBJECTS s !! cache_key vm d cfg) as [o|] eqn:Hc.
    + rewrite (getObject_hit init s vm d cfg o He Hc). by constructor.
    + destruct (construction_cases vm d cfg) as [[e Hr]|(cls & Hcls & Hi)].
      * rewrite (getObject_miss_raise s vm d cfg e He Hc Hr). constructor.
      * rewrite He in Hi.
        rewrite (getObject_miss init s vm d cfg cls He Hc Hcls Hi).
        constructor.
  - destruct (construction_cases vm d cfg) as [[e Hr]|(cls & Hcls & Hi)].
    + rewrite (getObject_override_raise init s vm d cfg e Hne Hr). constructor.
    + rewrite (getObject_override init s vm d cfg cls Hne Hcls Hi).
      constructor.
Qed.

Lemma outcome_objects_mono s vm d cfg r s' :
  outcome s vm d cfg r s' → (length (objects s) ≤ length (objects s'))%nat.
Proof.
  destruct 1; cbn [set_cache constructed objects];
    rewrite ?length_app; simpl; lia.
Qed.

Lemma outcome_cache_allocated s vm d cfg r s' :
  outcome s vm d cfg r s' → cache_allocated s → cache_allocated s'.
Proof.
  unfold cache_allocated.
  destruct 1; intros Hs k o'; cbn [set_cache constructed objects CACHED_OBJECTS];
    rewrite ?length_app; simpl.
  - apply Hs.
  - rewrite lookup_insert. case_decide.
    + intros [= <-]. lia.
    + intros H'%Hs. lia.
  - rewrite lookup_delete. case_decide; [done|]. intros H'%Hs. lia.
  - apply Hs.
  - rewrite lookup_delete. case_decide; [done|]. apply Hs.
Qed.

Lemma outcome_result_allocated s vm d cfg o s' :
  outcome s vm d cfg (inr o) s' → cache_allocated s →
  (o < length (objects s'))%nat.
Proof.
  inversion 1; subst; intros Hs; cbn [set_cache constructed objects];
    rewrite ?length_app; simpl; try lia.
  by eapply Hs.
Qed.

Lemma calls_objects_mono s s' :
  calls init s s' → (length (objects s) ≤ length (objects s'))%nat.
Proof.
  induction 1 as [|s' vm d cfg _ IH]; [done|].
  etrans; [exact IH|].
  eapply outcome_objects_mono, getObject_outcome.
Qed.

Lemma calls_cache_allocated s s' :
  calls init s s' → cache_allocated s → cache_allocated s'.
Proof.
  induction 1 as [|s' vm d cfg _ IH]; [done|]. intros Hs.
  eapply outcome_cache_allocated; [apply getObject_outcome|by apply IH].
Qed.

Lemma initial_cache_allocated daemon : cache_allocated (initial_state daemon).
Proof. intros k o. cbn. by rewrite lookup_empty. Qed.

(** An object returned by an earlier call is older than every object
    constructed later. *)
Lemma earlier_result_allocated daemon sp vm d cfg o sp' s :
  calls init (initial_state daemon) sp →
  getObject init vm d cfg sp = (inr o, sp') →
  calls init sp' s →
  (o < length (objects s))%nat.
Proof.
  intros Hsp Hcall Hs.
  pose proof (getObject_outcome sp vm d cfg) as Ho.
  rewrite Hcall in Ho. cbn [fst snd] in Ho.
  apply outcome_result_allocated in Ho;
    [|by eapply calls_cache_allocated, initial_cache_allocated].
  apply calls_objects_mono in Hs. lia.
Qed.

(** A storage type that names a class is the third component of its own
    cache key. *)
Lemma getClass_truthy st cls :
  getClass st = inr cls → Py.or_ st (Py.Str "") = st.
Proof.
  unfold getClass, getStorageTypes, STORAGE_TYPES. cbn.
  repeat case_decide; subst; try done.
Qed.

Lemma same_key_same_type vm d cfg0 cfg1 cls :
  cache_key vm d cfg1 = cache_key vm d cfg0 →
  getClass (resolve_storage_type vm cfg0).1 = inr cls →
  (resolve_storage_type vm cfg1).1 = (resolve_storage_type vm cfg0).1.
Proof.
  unfold cache_key. intros [= Hk] Hcls.
  rewrite (getClass_truthy _ _ Hcls) in Hk.
  pose proof Hcls as Hc. rewrite <- Hk in Hc.
  unfold Py.or_ in Hk.
  destruct (Py.truthy (resolve_storage_type vm cfg1).1); [done|].
  rewrite <- Hk in Hcls. cbv in Hcls. done.
Qed.

End GetObjectInvariants.

Section GetObjectProperties.
Import Factory FactorySpec.

Variable init : hard_drive_class → VirtualMachine → Z →
                gmap string Py.value → option Py.exn.

(** C1, as the code has it: [getObject] takes the storage type of the
    virtual machine's configuration whenever that is set, and the
    [storage_type] override only when the configuration has none; either
    way the override is taken out of the overrides, so that with a
    configured storage type a lookup is the same with and without it.
    [ensure_hdd_valid] reads no configuration: a storage type it is given
    is the one it goes on with, or is refused. *)
Theorem getObject_config_storage_type_first
  (vm : VirtualMachine) (config : gmap string Py.value) :
  (resolve_storage_type vm config).1 =
    (if Py.truthy (config_storage_type vm) then config_storage_type vm
     else default Py.None_ (config !! "storage_type")) ∧
  (resolve_storage_type vm config).2 = delete "storage_type" config ∧
  (∀ v d s, Py.truthy (config_storage_type vm) = true →
     getObject init vm d (<["storage_type" := v]> config) s =
     getObject init vm d (delete "storage_type" config) s) ∧
  (∀ host node storage_type w, Py.truthy storage_type = true →
     select_storage_type host node storage_type w = (inr storage_type, w) ∨
     ∃ msg, select_storage_type host node storage_type w =
              (inl (Py.UnknownStorageTypeException msg), w)).
Proof.
  split; [apply resolve_chosen|]. split; [apply resolve_overrides|]. split.
  - intros v d s Ht. unfold getObject.
    assert (R : ∀ c, resolve_storage_type vm c =
                     (config_storage_type vm, delete "storage_type" c)).
    { intros c. rewrite (surjective_pairing (resolve_storage_type vm c)).
      by rewrite resolve_chosen, resolve_overrides, Ht. }
    rewrite !R. by rewrite delete_insert_eq, delete_delete_eq.
  - intros host node storage_type w Ht. unfold select_storage_type.
    rewrite Ht. case_match; [right; by eexists|by left].
Qed.

(** C2: a lookup without overrides returns a hard drive object, and a
    second one returns the very same object from the cache; a lookup with
    an override then returns a new object, different from the result of
    every earlier call, takes the entry of its key out of the cache and
    stores nothing; the next lookup without overrides constructs and
    stores another new object. *)
Theorem getObject_cache_identity
  (daemon : bool) (s : state) (vm : VirtualMachine) (d : Z)
  (plain override : gmap string Py.value) (cls : hard_drive_class) :
  calls init (initial_state daemon) s →
  (resolve_storage_type vm plain).2 = ∅ →
  (resolve_storage_type vm override).2 ≠ ∅ →
  cache_key vm d override = cache_key vm d plain →
  getClass (resolve_storage_type vm plain).1 = inr cls →
  init cls vm d ∅ = None →
  init cls vm d (resolve_storage_type vm override).2 = None →
  ∃ o1 s1,
    getObject init vm d plain s = (inr o1, s1) ∧
    getObject init vm d plain s1 = (inr o1, s1) ∧
    CACHED_OBJECTS s1 !! cache_key vm d plain = Some o1 ∧
    ∃ o2 s2,
      getObject init vm d override s1 = (inr o2, s2) ∧
      (∀ sp vmp dp cfgp op sp',
         calls init (initial_state daemon) sp →
         getObject init vmp dp cfgp sp = (inr op, sp') →
         calls init sp' s1 → o2 ≠ op) ∧
      objects s2 = objects s1 ++
        [{| hd_class := cls; hd_vm := vm; hd_disk_id := d;
            hd_config := (resolve_storage_type vm override).2 |}] ∧
      objects s2 !! o2 =
        Some {| hd_class := cls; hd_vm := vm; hd_disk_id := d;
                hd_config := (resolve_storage_type vm override).2 |} ∧
      CACHED_OBJECTS s2 = delete (cache_key vm d plain) (CACHED_OBJECTS s1) ∧
      ∃ o3 s3,
        getObject init vm d plain s2 = (inr o3, s3) ∧
        o3 ≠ o1 ∧ o3 ≠ o2 ∧
        objects s3 = objects s2 ++
          [{| hd_class := cls; hd_vm := vm; hd_disk_id := d;
              hd_config := ∅ |}] ∧
        CACHED_OBJECTS s3 !! cache_key vm d plain = Some o3.
Proof.
  intros Hs Hplain Hover Hkey Hcls Hi0 Hi1.
  pose proof (same_key_same_type vm d plain override cls Hkey Hcls) as Hst.
  assert (Hcls1 : getClass (resolve_storage_type vm override).1 = inr cls)
    by by rewrite Hst.
  assert (∃ o1 s1, getObject init vm d plain s = (inr o1, s1) ∧
            CACHED_OBJECTS s1 !! cache_key vm d plain = Some o1)
    as (o1 & s1 & Hcall1 & Hc1).
  { destruct (CACHED_OBJECTS s !! cache_key vm d plain) as [o|] eqn:Hc.
    - exists o, s. by rewrite (getObject_hit init s vm d plain o).
    - eexists _, _. rewrite (getObject_miss init s vm d plain cls) by done.
      split; [done|]. cbn. by rewrite lookup_insert_eq. }
  exists o1, s1. split; [done|].
  split; [by apply getObject_hit|]. split; [done|].
  assert (Hs1 : calls init (initial_state daemon) s1).
  { pose proof (calls_step init _ s vm d plain Hs) as H.
    by rewrite Hcall1 in H. }
  eexists _, _. split.
  { by apply (getObject_override init s1 vm d override cls). }
  split.
  { intros sp vmp dp cfgp op sp' Hsp Hcallp Hsp'.
    pose proof (earlier_result_allocated init daemon sp vmp dp cfgp op sp' s1
                  Hsp Hcallp Hsp'). lia. }
  split; [done|]. split.
  { cbn. by rewrite lookup_app_r, Nat.sub_diag by done. }
  split; [cbn; by rewrite Hkey|].
  eexists _, _. split.
  { apply (getObject_miss init _ vm d plain cls); try done.
    cbn. rewrite Hkey. apply lookup_delete_eq. }
  assert (o1 < length (objects s1))%nat as Ho1.
  { by apply (earlier_result_allocated init daemon s vm d plain o1 s1 s1);
      [| |constructor]. }
  cbn. rewrite !length_app. cbn.
  split; [lia|]. split; [lia|]. split; [done|].
  by rewrite lookup_insert_eq.
Qed.

(** C10: when a lookup with an override fails to construct its object,
    the entry of its key has already been taken out of the cache and
    stays out: the call ends with the exception, no object was made, the
    other entries are as before, and the next lookup of the key without
    overrides does not return the object that was stored. *)
Theorem getObject_eviction_survives_error
  (s : state) (vm : VirtualMachine) (d : Z)
  (override : gmap string Py.value) (e : Py.exn) :
  (resolve_storage_type vm override).2 ≠ ∅ →
  construction_raises init vm d override e →
  ∃ s',
    getObject init vm d override s = (inl e, s') ∧
    CACHED_OBJECTS s' !! cache_key vm d override = None ∧
    (∀ k, k ≠ cache_key vm d override →
          CACHED_OBJECTS s' !! k = CACHED_OBJECTS s !! k) ∧
    objects s' = objects s ∧
    (∀ plain o,
       CACHED_OBJECTS s !! cache_key vm d override = Some o →
       cache_allocated s →
       (resolve_storage_type vm plain).2 = ∅ →
       cache_key vm d plain = cache_key vm d override →
       (getObject init vm d plain s').1 ≠ inr o).
Proof.
  intros Hover Hraise.
  exists (set_cache (delete (cache_key vm d override)) s).
  split; [by apply getObject_override_raise|].
  split; [cbn; apply lookup_delete_eq|].
  split; [intros k Hk; cbn; by apply lookup_delete_ne|].
  split; [done|].
  intros plain o Ho Halloc Hplain Hkey.
  set (s' := set_cache (delete (cache_key vm d override)) s).
  assert (Hc : CACHED_OBJECTS s' !! cache_key vm d plain = None).
  { cbn. rewrite Hkey. apply lookup_delete_eq. }
  destruct (construction_cases init vm d plain) as [[e' Hr]|(c & Hcls & Hi)].
  - by rewrite (getObject_miss_raise init s' vm d plain e').
  - rewrite Hplain in Hi.
    rewrite (getObject_miss init s' vm d plain c) by done.
    cbn. intros [= Heq]. apply Halloc in Ho. lia.
Qed.

End GetObjectProperties.

(** C1 as stated fails: the virtual machine's configuration says [Local],
    the call passes [storage_type='Drbd'], and the lookup works with
    [Local]: that is the class of the object it returns. *)
Lemma explicit_storage_type_does_not_win :
  let vm := Examples.vm1 in
  let config : gmap string Py.value := {[ "storage_type" := Py.Str "Drbd" ]} in
  let r := Factory.getObject Examples.init_any vm 1 config
             (Factory.initial_state false) in
  Py.truthy (Factory.config_storage_type vm) = true ∧
  config !! "storage_type" = Some (Py.Str "Drbd") ∧
  (Factory.resolve_storage_type vm config).1 = Py.Str "Local" ∧
  (Factory.resolve_storage_type vm config).1 ≠ Py.Str "Drbd" ∧
  r.1 = inr 0%nat ∧
  Factory.hd_class <$> Factory.objects r.2 !! 0%nat = Some Factory.Local.
Proof. cbv zeta. repeat split; try done; vm_compute; done. Qed.

Lemma getObject_config_storage_type_first_witness :
  Factory.getObject Examples.init_any Examples.vm1 1
    (<["storage_type" := Py.Str "Drbd"]> ∅) (Factory.initial_state false) =
  Factory.getObject Examples.init_any Examples.vm1 1
    (delete "storage_type" ∅) (Factory.initial_state false).
Proof.
  apply (proj1 (proj2 (proj2
    (getObject_config_storage_type_first Examples.init_any Examples.vm1 ∅)))).
  reflexivity.
Defined.

Lemma getObject_cache_identity_witness :
  ∃ o1 s1 o2 s2 o3 s3,
    Factory.getObject Examples.init_any Examples.vm1 1 ∅
      (Factory.initial_state true) = (inr o1, s1) ∧
    Factory.getObject Examples.init_any Examples.vm1 1 ∅ s1 = (inr o1, s1) ∧
    Factory.getObject Examples.init_any Examples.vm1 1
      {[ "driver" := Py.Str "virtio" ]} s1 = (inr o2, s2) ∧
    Factory.getObject Examples.init_any Examples.vm1 1 ∅ s2 = (inr o3, s3) ∧
    o2 ≠ o1 ∧ o3 ≠ o1 ∧ o3 ≠ o2.
Proof.
  destruct (getObject_cache_identity Examples.init_any true
              (Factory.initial_state true) Examples.vm1 1 ∅
              {[ "driver" := Py.Str "virtio" ]} Factory.Local)
    as (o1 & s1 & H1 & H2 & _ & o2 & s2 & H3 & Hfresh & _ & _ & _ &
        o3 & s3 & H4 & Hn1 & Hn2 & _).
  - constructor.
  - reflexivity.
  - vm_compute. discriminate.
  - vm_compute. reflexivity.
  - reflexivity.
  - reflexivity.
  - reflexivity.
  - exists o1, s1, o2, s2, o3, s3. repeat split; try assumption.
    apply (Hfresh (Factory.initial_state true) Examples.vm1 1 ∅ o1 s1);
      [constructor|assumption|constructor].
Defined.

Lemma getObject_eviction_survives_error_witness :
  Factory.CACHED_OBJECTS Examples.one_cached
    !! Factory.cache_key Examples.vm1 1 {[ "bogus" := Py.Int 1 ]} = Some 0%nat ∧
  ∃ s',
    Factory.getObject Examples.init_strict Examples.vm1 1
      {[ "bogus" := Py.Int 1 ]} Examples.one_cached =
      (inl (Py.TypeError
              "__init__() got an unexpected keyword argument 'bogus'"), s') ∧
    Factory.CACHED_OBJECTS s'
      !! Factory.cache_key Examples.vm1 1 {[ "bogus" := Py.Int 1 ]} = None.
Proof.
  split; [vm_compute; reflexivity|].
  destruct (getObject_eviction_survives_error Examples.init_strict
              Examples.one_cached Examples.vm1 1 {[ "bogus" := Py.Int 1 ]}
              (Py.TypeError
                 "__init__() got an unexpected keyword argument 'bogus'"))
    as (s' & H1 & H2 & _).
  - vm_compute. discriminate.
  - vm_compute. reflexivity.
  - exists s'. split; assumption.
Defined.

Section NumeralFacts.
Import Parse Numeral.

Lemma digit_of_digit_char d :
  (d < 10)%nat → digit_of (digit_char d) = Some (Z.of_nat d).
Proof.
  intros H. do 10 (destruct d as [|d]; [reflexivity|]). lia.
Qed.

Lemma digit_char_not_space d :
  (d < 10)%nat → is_space (digit_char d) = false.
Proof.
  intros H. do 10 (destruct d as [|d]; [reflexivity|]). lia.
Qed.

Lemma digit_char_not_sign d :
  (d < 10)%nat →
  Ascii.eqb (digit_char d) "-" = false ∧ Ascii.eqb (digit_char d) "+" = false.
Proof.
  intros H. do 10 (destruct d as [|d]; [split; reflexivity|]). lia.
Qed.

Lemma span_digits_text ds r :
  digits ds →
  match r with c :: _ => digit_of c = None | [] => True end →
  span_digits (text ds ++ r) = (map Z.of_nat ds, r).
Proof.
  intros Hds Hr. induction Hds as [|d ds Hd _ IH]; cbn.
  - destruct r as [|c r]; [done|]. cbn. by rewrite Hr.
  - fold (digit_char d). rewrite digit_of_digit_char by done.
    fold (text ds). by rewrite IH.
Qed.

Lemma lstrip_blanks lead l : blanks lead → lstrip (lead ++ l) = lstrip l.
Proof. induction 1 as [|c lead Hc _ IH]; cbn; [done|]. by rewrite Hc. Qed.

Lemma lstrip_solid l r :
  match l with c :: _ => is_space c = false | [] => False end →
  lstrip (l ++ r) = l ++ r.
Proof. destruct l as [|c l]; [done|]. intros H. cbn. by rewrite H. Qed.

(** [strip] removes the blanks around a text that starts and ends with a
    character that is not blank. *)
Lemma strip_between lead body trail :
  blanks lead → blanks trail →
  match body with c :: _ => is_space c = false | [] => False end →
  match rev body with c :: _ => is_space c = false | [] => False end →
  strip (lead ++ body ++ trail) = body.
Proof.
  intros Hl Ht Hb Hb'. unfold strip.
  rewrite lstrip_blanks, lstrip_solid by done.
  rewrite rev_app_distr, lstrip_blanks by (by apply Forall_rev).
  rewrite <- (app_nil_r (rev body)), lstrip_solid by done.
  by rewrite app_nil_r, rev_involutive.
Qed.

Lemma text_solid_ends ip fp :
  digits ip → digits fp → ip ≠ [] →
  let body := text ip ++ "."%char :: text fp in
  match body with c :: _ => is_space c = false | [] => False end ∧
  match rev body with c :: _ => is_space c = false | [] => False end.
Proof.
  intros Hip Hfp Hne. cbn zeta. split.
  - destruct Hip as [|d ip Hd _]; [done|]. cbn. by apply digit_char_not_space.
  - rewrite rev_app_distr. cbn [rev]. rewrite <- app_assoc.
    unfold text. rewrite <- map_rev.
    assert (Hr : digits (rev fp)) by by apply Forall_rev.
    destruct Hr as [|d l Hd _]; cbn; [done|]. by apply digit_char_not_space.
Qed.

Lemma number_from acc ds :
  fold_left (λ a d, 10 * a + d) ds acc =
  acc * 10 ^ Z.of_nat (length ds) + number ds.
Proof.
  unfold number. revert acc.
  induction ds as [|d ds IH]; intros acc; cbn [fold_left length].
  - cbn. lia.
  - rewrite IH, (IH (10 * 0 + d)).
    rewrite Nat2Z.inj_succ, Z.pow_succ_r by lia. lia.
Qed.

Lemma number_app a b :
  number (a ++ b) = number a * 10 ^ Z.of_nat (length b) + number b.
Proof. unfold number at 1. rewrite fold_left_app. apply number_from. Qed.

Lemma value_bounds ds :
  digits ds → 0 ≤ value ds < 10 ^ Z.of_nat (length ds).
Proof.
  unfold value, number.
  induction ds as [|d ds IH] using rev_ind; intros Hds; [cbn; lia|].
  apply Forall_app in Hds as [Hds Hd]. rewrite Forall_singleton in Hd.
  rewrite map_app, fold_left_app, length_app. cbn.
  rewrite Nat.add_1_r, Nat2Z.inj_succ, Z.pow_succ_r by lia.
  specialize (IH Hds). lia.
Qed.

Lemma value_zero ds :
  digits ds → (value ds = 0 ↔ Forall (λ d, d = 0%nat) ds).
Proof.
  intros Hds. pose proof Hds as Hb.
  induction ds as [|d ds IH] using rev_ind; [by cbn|].
  apply Forall_app in Hds as [Hds Hd]. rewrite Forall_singleton in Hd.
  unfold value. rewrite map_app, number_app. cbn [map length].
  change (number (map Z.of_nat ds)) with (value ds).
  change (number [Z.of_nat d]) with (10 * 0 + Z.of_nat d).
  pose proof (value_bounds ds Hds).
  rewrite Forall_app, Forall_singleton, <- IH by done.
  change (10 ^ Z.of_nat 1) with 10. lia.
Qed.

Lemma strip_text ip : digits ip → ip ≠ [] → strip (text ip) = text ip.
Proof.
  intros Hip Hne.
  change (text ip) with ([] ++ text ip) at 1.
  rewrite <- (app_nil_r (text ip)) at 1.
  apply strip_between; [constructor|constructor| |].
  - destruct Hip as [|d ip Hd _]; [done|]. cbn. by apply digit_char_not_space.
  - unfold text. rewrite <- map_rev.
    assert (Hr : digits (rev ip)) by by apply Forall_rev.
    destruct (rev ip) as [|d l] eqn:E.
    + apply (f_equal (@length nat)) in E. rewrite length_rev in E.
      by destruct ip.
    + cbn. apply digit_char_not_space. by inversion Hr.
Qed.

Lemma digit_char_not_special d l :
  (d < 10)%nat → special (digit_char d :: l) = None.
Proof.
  intros H. unfold special.
  do 10 (destruct d as [|d]; [reflexivity|]). lia.
Qed.

(** What [float] reads in a report: the binary64 nearest to the number
    printed. *)
Lemma float_report lead ip fp trail :
  blanks lead → blanks trail → digits ip → digits fp → ip ≠ [] →
  float (report lead ip fp trail) =
    inr (round64 (value (ip ++ fp)) (- Z.of_nat (length fp))).
Proof.
  intros Hl Ht Hip Hfp Hne. unfold float, report.
  rewrite list_ascii_of_string_of_list_ascii.
  change (text ip ++ "."%char :: text fp ++ trail)
    with (text ip ++ ("."%char :: text fp) ++ trail).
  rewrite (app_assoc (text ip)).
  destruct (text_solid_ends ip fp Hip Hfp Hne) as [H1 H2].
  rewrite strip_between by done.
  destruct Hip as [|d ip Hd Hip]; [done|].
  cbn [text map app signed].
  destruct (digit_char_not_sign d Hd) as [-> ->].
  unfold float_unsigned. rewrite digit_char_not_special by done.
  unfold decimal_unsigned.
  change (span_digits (digit_char d :: map digit_char ip ++ "."%char :: text fp))
    with (span_digits (text (d :: ip) ++ "."%char :: text fp)).
  rewrite span_digits_text by (done || by constructor).
  cbn [Ascii.eqb Bool.eqb].
  rewrite <- (app_nil_r (text fp)), span_digits_text by done.
  unfold value. rewrite length_map. cbn [map app exponent_part].
  rewrite map_app. do 2 f_equal.
Qed.

(** What [int] reads in the part of a report before the dot. *)
Lemma int_report lead ip fp trail :
  blanks lead → blanks trail → digits ip → digits fp → ip ≠ [] →
  int (string_of_list_ascii
         (before_dot (strip (list_ascii_of_string (report lead ip fp trail)))))
  = inr (value ip).
Proof.
  intros Hl Ht Hip Hfp Hne. unfold int, report.
  rewrite !list_ascii_of_string_of_list_ascii.
  change (text ip ++ "."%char :: text fp ++ trail)
    with (text ip ++ ("."%char :: text fp) ++ trail).
  rewrite (app_assoc (text ip)).
  destruct (text_solid_ends ip fp Hip Hfp Hne) as [H1 H2].
  rewrite strip_between by done.
  assert (Hb : before_dot (text ip ++ "."%char :: text fp) = text ip).
  { clear -Hip. induction Hip as [|d ip Hd _ IH]; [done|].
    cbn. fold (digit_char d). fold (text ip).
    replace (Ascii.eqb (digit_char d) ".") with false; [by rewrite IH|].
    do 10 (destruct d as [|d]; [reflexivity|]). lia. }
  rewrite Hb.
  assert (Hs : strip (text ip) = text ip) by by apply strip_text.
  rewrite Hs.
  destruct Hip as [|d ip Hd Hip]; [done|].
  cbn [text map signed].
  destruct (digit_char_not_sign d Hd) as [-> ->].
  change (digit_char d :: map digit_char ip) with (text (d :: ip)).
  unfold int_unsigned.
  rewrite <- (app_nil_r (text (d :: ip))), span_digits_text
    by (done || by constructor).
  by cbn.
Qed.

End NumeralFacts.

Section Rounding.
Import Parse.
Local Open Scope Z_scope.

Lemma pow2_pos (t : Z) : 0 ≤ t → 0 < 2 ^ t.
Proof. intros H. by apply Z.pow_pos_nonneg. Qed.

(** The exponent [binade] finds is not above the number. *)
Lemma binade_low n d j :
  0 < n → 0 < d → 0 ≤ j → 0 ≤ binade n d + j →
  d * 2 ^ (binade n d + j) ≤ n * 2 ^ j.
Proof.
  intros Hn Hd Hj. unfold binade.
  set (a := Z.log2 n). set (b := Z.log2 d).
  pose proof (Z.log2_spec n Hn) as [Ha _]. fold a in Ha.
  pose proof (Z.log2_spec d Hd) as [_ Hb]. fold b in Hb.
  pose proof (Z.log2_nonneg n). pose proof (Z.log2_nonneg d).
  pose proof (pow2_pos j Hj) as Hpj.
  destruct (Z.leb_spec 0 (a - b)) as [Hk0|Hk0].
  - destruct (Z.leb_spec (d * 2 ^ (a - b)) n) as [Ht|Ht]; intros Hk.
    + rewrite Z.pow_add_r by lia. nia.
    + replace (a - b - 1 + j) with ((a - b - 1 + j)) by lia.
      assert (E : 2 ^ (Z.succ b) * 2 ^ (a - b - 1 + j) = 2 ^ a * 2 ^ j).
      { rewrite <- !Z.pow_add_r by lia. f_equal. lia. }
      pose proof (pow2_pos (a - b - 1 + j) Hk). nia.
  - destruct (Z.leb_spec d (n * 2 ^ (- (a - b)))) as [Ht|Ht]; intros Hk.
    + assert (E : 2 ^ j = 2 ^ (- (a - b)) * 2 ^ (a - b + j)).
      { rewrite <- Z.pow_add_r by lia. f_equal. lia. }
      rewrite E. pose proof (pow2_pos (a - b + j) Hk). nia.
    + assert (E : 2 ^ (Z.succ b) * 2 ^ (a - b - 1 + j) = 2 ^ a * 2 ^ j).
      { rewrite <- !Z.pow_add_r by lia. f_equal. lia. }
      pose proof (pow2_pos (a - b - 1 + j) Hk). nia.
Qed.

(** A number that is [P / 2 ^ j] with [P] of at most 53 bits is a
    binary64, and rounding gives it back. *)
Lemma round_ratio_exact n d j P :
  0 < n → 0 < d → 0 ≤ j ≤ 1074 → n * 2 ^ j = P * d → P < 2 ^ 53 →
  ∃ t, 0 ≤ t ∧ round_ratio n d = Finite (P * 2 ^ t) (- (t + j)).
Proof.
  intros Hn Hd Hj HP Hlt.
  pose proof (pow2_pos j (proj1 Hj)) as Hpj.
  assert (HPpos : 0 < P) by nia.
  assert (Hk : binade n d + j ≤ 52).
  { destruct (Z_le_gt_dec (binade n d + j) 52) as [|Hgt]; [done|].
    pose proof (binade_low n d j Hn Hd (proj1 Hj) ltac:(lia)) as Hlow.
    assert (2 ^ 53 ≤ 2 ^ (binade n d + j)) by (apply Z.pow_le_mono_r; lia).
    nia. }
  unfold round_ratio. set (e := Z.max (binade n d - 52) (-1074)).
  assert (He : e ≤ - j) by lia.
  exists (- e - j). split; [lia|].
  replace (- (- e - j + j)) with e by lia.
  assert (Hnum : (if Z.leb 0 e then n else n * 2 ^ (- e)) =
                 P * 2 ^ (- e - j) *
                 (if Z.leb 0 e then d * 2 ^ e else d)).
  { destruct (Z.leb_spec 0 e).
    - assert (e = 0) as -> by lia. assert (j = 0) as -> by lia.
      cbn in *. lia.
    - replace (- e) with (j + (- e - j)) at 1 by lia.
      rewrite Z.pow_add_r by lia. nia. }
  assert (Hden : 0 < (if Z.leb 0 e then d * 2 ^ e else d)).
  { destruct (Z.leb_spec 0 e); [|done].
    pose proof (pow2_pos e ltac:(lia)). nia. }
  unfold round_at. rewrite Hnum.
  rewrite Z.div_mul, Z.mod_mul by lia.
  rewrite (proj2 (Z.ltb_ge _ _)) by lia.
  rewrite (proj2 (Z.eqb_neq _ _)) by lia. cbn [orb andb].
  destruct (Z.leb_spec 0 e); [|done].
  assert (e = 0) as -> by lia. assert (j = 0) as -> by lia.
  rewrite (proj2 (Z.leb_gt _ _)); [done|].
  cbn [Z.opp Z.sub Z.add Z.pow Z.pow_pos Pos.iter Z.mul] in *.
  rewrite Z.mul_1_r.
  apply Z.lt_trans with (2 ^ 53); [lia|].
  by apply Z.pow_lt_mono_r.
Qed.

(** What the binary64 [P * 2 ^ t * 2 ^ - (t + j)], that is [P / 2 ^ j],
    is to [int], to [is_whole] and to a comparison. *)
Lemma exact_int_of_float P t j :
  0 ≤ P → 0 ≤ t → 0 ≤ j →
  int_of_float (Finite (P * 2 ^ t) (- (t + j))) = inr (P / 2 ^ j).
Proof.
  intros HP Ht Hj. unfold int_of_float. f_equal.
  pose proof (pow2_pos t Ht). pose proof (pow2_pos j Hj).
  destruct (Z.leb_spec 0 (- (t + j))).
  - assert (t = 0) as -> by lia. assert (j = 0) as -> by lia.
    cbn. rewrite Z.div_1_r. lia.
  - rewrite Z.opp_involutive, Z.pow_add_r by lia.
    rewrite Z.quot_div_nonneg by nia.
    rewrite (Z.mul_comm (2 ^ t) (2 ^ j)).
    by rewrite Z.div_mul_cancel_r by lia.
Qed.

Lemma exact_is_whole P t j :
  0 ≤ P → 0 ≤ t → 0 ≤ j →
  is_whole (Finite (P * 2 ^ t) (- (t + j))) = Z.eqb (P mod 2 ^ j) 0.
Proof.
  intros HP Ht Hj. unfold is_whole.
  pose proof (pow2_pos t Ht). pose proof (pow2_pos j Hj).
  destruct (Z.leb_spec 0 (- (t + j))).
  - assert (j = 0) as -> by lia. cbn. by rewrite Z.mod_1_r.
  - rewrite Z.opp_involutive, Z.pow_add_r by lia.
    rewrite Z.rem_mod_nonneg by nia.
    rewrite (Z.mul_comm (2 ^ t) (2 ^ j)).
    rewrite Z.mul_mod_distr_r by lia.
    pose proof (Z.mod_pos_bound P (2 ^ j) ltac:(lia)).
    destruct (Z.eqb_spec (P mod 2 ^ j) 0) as [->|Hne]; [done|].
    apply Z.eqb_neq. nia.
Qed.

Lemma exact_lt_int P t j (n : Z) :
  0 ≤ t → 0 ≤ j →
  lt_int (Finite (P * 2 ^ t) (- (t + j))) n = Z.ltb P (n * 2 ^ j).
Proof.
  intros Ht Hj. unfold lt_int.
  pose proof (pow2_pos t Ht). pose proof (pow2_pos j Hj).
  destruct (Z.leb_spec 0 (- (t + j))).
  - assert (t = 0) as -> by lia. assert (j = 0) as -> by lia.
    cbn. by rewrite !Z.mul_1_r.
  - rewrite Z.opp_involutive, Z.pow_add_r by lia.
    destruct (Z.ltb_spec P (n * 2 ^ j)); [apply Z.ltb_lt|apply Z.ltb_ge]; nia.
Qed.

End Rounding.

Lemma append_assoc (a b c : string) : (a +:+ b) +:+ c = a +:+ (b +:+ c).
Proof.
  induction a as [|x a IH]; [done|].
  change (String x ((a +:+ b) +:+ c) = String x (a +:+ (b +:+ c))).
  by rewrite IH.
Qed.

Section CommandFacts.

Variable host : Host.

Implicit Types (w : world) (self : LvmVolume.t).

(** What a command that is run with the failure signal on does. *)
Lemma runCommand_ok w argv :
  exit_code (tool host (executed w) argv) = 0 →
  System.runCommand host argv true w =
    (inr (tool host (executed w) argv), Command.after w argv).
Proof. intros H. unfold System.runCommand. by rewrite H. Qed.

Lemma runCommand_failed w argv :
  exit_code (tool host (executed w) argv) ≠ 0 →
  System.runCommand host argv true w =
    (inl (Py.MCVirtCommandException
            (failure_text host argv (tool host (executed w) argv))),
     Command.after w argv).
Proof.
  intros H. unfold System.runCommand.
  by destruct (Z.eqb_spec (exit_code (tool host (executed w) argv)) 0).
Qed.

(** A guarded command, [try: runCommand(argv)  except
    MCVirtCommandException], wraps the failure. *)
Lemma guarded_failed w argv prefix :
  exit_code (tool host (executed w) argv) ≠ 0 →
  try_except (System.runCommand host argv true;; ret tt)
    (wrap_command_error prefix) w =
    (inl (Py.ExternalStorageCommandErrorException
            (prefix +:+
             failure_text host argv (tool host (executed w) argv))),
     Command.after w argv).
Proof.
  intros H. unfold try_except, mbind, M_bind, bind.
  by rewrite runCommand_failed.
Qed.

Lemma guarded_ok w argv prefix :
  exit_code (tool host (executed w) argv) = 0 →
  try_except (System.runCommand host argv true;; ret tt)
    (wrap_command_error prefix) w = (inr tt, Command.after w argv).
Proof.
  intros H. unfold try_except, mbind, M_bind, bind.
  by rewrite runCommand_ok.
Qed.

Lemma create_failed w self size :
  exit_code (tool host (executed w) (Command.lvcreate self size)) ≠ 0 →
  LvmVolume.create host self size w =
    (inl (Py.ExternalStorageCommandErrorException
            ("Error whilst creating disk logical volume:" +:+ newline +:+
             failure_text host (Command.lvcreate self size)
               (tool host (executed w) (Command.lvcreate self size)))),
     Command.after w (Command.lvcreate self size)).
Proof.
  intros H. unfold LvmVolume.create.
  rewrite (guarded_failed w (Command.lvcreate self size)) by done.
  by rewrite append_assoc.
Qed.

Lemma activate_failed w self :
  exit_code (tool host (executed w) (Command.lvchange self)) ≠ 0 →
  LvmVolume.activate host self w =
    (inl (Py.ExternalStorageCommandErrorException
            ("Error whilst activating logical volume:" +:+ newline +:+
             failure_text host (Command.lvchange self)
               (tool host (executed w) (Command.lvchange self)))),
     Command.after w (Command.lvchange self)).
Proof.
  intros H. unfold LvmVolume.activate.
  rewrite (guarded_failed w (Command.lvchange self)) by done.
  by rewrite append_assoc.
Qed.

Lemma resize_failed w self size :
  exit_code (tool host (executed w) (Command.lvresize self size)) ≠ 0 →
  LvmVolume.resize host self size w =
    (inl (Py.ExternalStorageCommandErrorException
            ("Error whilst resizing disk logical volume:" +:+ newline +:+
             failure_text host (Command.lvresize self size)
               (tool host (executed w) (Command.lvresize self size)))),
     Command.after w (Command.lvresize self size)).
Proof.
  intros H. unfold LvmVolume.resize.
  rewrite (guarded_failed w (Command.lvresize self size)) by done.
  by rewrite append_assoc.
Qed.

Lemma get_size_failed w self :
  exit_code (tool host (executed w) (Command.lvs_size self)) ≠ 0 →
  LvmVolume.get_size host self w =
    (inl (Py.ExternalStorageCommandErrorException
            ("Error whilst obtaining the size of the logical volume:"
             +:+ newline +:+
             failure_text host (Command.lvs_size self)
               (tool host (executed w) (Command.lvs_size self)))),
     Command.after w (Command.lvs_size self)).
Proof.
  intros H. pose proof (runCommand_failed w (Command.lvs_size self) H) as E.
  unfold Command.lvs_size in E |- *.
  unfold LvmVolume.get_size, try_except, mbind, M_bind, bind.
  rewrite E. cbn [wrap_command_error]. by rewrite append_assoc.
Qed.

Lemma delete_runs w self ignore_non_existent :
  ignore_non_existent = false ∨
  lexists host (executed w) (LvmVolume.get_path self None) = true →
  LvmVolume.delete host self ignore_non_existent w =
    try_except (System.runCommand host (Command.lvremove self) true;; ret tt)
      (wrap_command_error ("Error whilst removing logical volume:" +:+ newline))
      w.
Proof.
  intros H. unfold LvmVolume.delete, try_except, mbind, M_bind, bind,
    LvmVolume.check_exists, ret.
  destruct ignore_non_existent; [|done].
  destruct H as [|H]; [done|]. by rewrite H.
Qed.

Lemma delete_skips w self :
  lexists host (executed w) (LvmVolume.get_path self None) = false →
  LvmVolume.delete host self true w = (inr tt, w).
Proof.
  intros H. unfold LvmVolume.delete, try_except, mbind, M_bind, bind,
    LvmVolume.check_exists, ret.
  by rewrite H.
Qed.

(** [snapshot] has no guard: the failure of its command comes out as the
    [MCVirtCommandException] itself. *)
Lemma snapshot_failed w self destination_volume size :
  exit_code (tool host (executed w)
               (Command.lvsnapshot self destination_volume size)) ≠ 0 →
  LvmVolume.snapshot host self destination_volume size w =
    (inl (Py.MCVirtCommandException
            (failure_text host (Command.lvsnapshot self destination_volume size)
               (tool host (executed w)
                  (Command.lvsnapshot self destination_volume size)))),
     Command.after w (Command.lvsnapshot self destination_volume size)).
Proof.
  intros H.
  pose proof (runCommand_failed w
                (Command.lvsnapshot self destination_volume size) H) as E.
  unfold Command.lvsnapshot in E |- *.
  unfold LvmVolume.snapshot, mbind, M_bind, bind. by rewrite E.
Qed.

(** [get_free_space] runs its command with the failure signal off and
    reads the output, whatever the exit code. *)
Lemma get_free_space_eq w (backend : Lvm.t) :
  Lvm.get_free_space host backend w =
    (Parse.float (stdout (tool host (executed w) (Command.vgs_free backend))),
     Command.after w (Command.vgs_free backend)).
Proof.
  unfold Lvm.get_free_space, mbind, M_bind, bind, System.runCommand, lift.
  by rewrite andb_false_r.
Qed.

End CommandFacts.

Section NumeralValues.
Import Parse Numeral.
Local Open Scope Z_scope.

Lemma value_app a b :
  value (a ++ b) = value a * 10 ^ Z.of_nat (length b) + value b.
Proof. unfold value. by rewrite map_app, number_app, length_map. Qed.

Lemma pow10_pos (z : nat) : 0 < 10 ^ Z.of_nat z.
Proof. apply Z.pow_pos_nonneg; lia. Qed.

(** The float of a report whose fraction digits are all zero is the
    whole number printed, when that has at most 53 bits. *)
Lemma round64_whole ip fp :
  digits ip → digits fp → Forall (λ d, d = 0%nat) fp → value ip < 2 ^ 53 →
  ∃ t, 0 ≤ t ∧
       round64 (value (ip ++ fp)) (- Z.of_nat (length fp)) =
         Finite (value ip * 2 ^ t) (- (t + 0)).
Proof.
  intros Hip Hfp Hz Hlt. rewrite value_app.
  rewrite (proj2 (value_zero fp Hfp) Hz), Z.add_0_r.
  pose proof (value_bounds ip Hip) as [Hge _].
  pose proof (pow10_pos (length fp)) as Hp.
  unfold round64.
  destruct (Z.eqb_spec (value ip * 10 ^ Z.of_nat (length fp)) 0) as [E|E].
  - exists 0. split; [done|]. assert (value ip = 0) as -> by nia. done.
  - assert (0 < value ip) by nia.
    destruct (Z.leb_spec 0 (- Z.of_nat (length fp))).
    + apply (round_ratio_exact _ 1 0 (value ip)); try lia.
      assert (Z.of_nat (length fp) = 0) as -> by lia. cbn. lia.
    + rewrite Z.opp_involutive.
      apply (round_ratio_exact _ _ 0 (value ip)); (lia || nia).
Qed.

(** The float of a report whose fraction is a five and then zeros is the
    number printed, a whole number and a half, when twice that has at
    most 53 bits. *)
Lemma round64_half ip zeros :
  digits ip → digits zeros → Forall (λ d, d = 0%nat) zeros →
  value ip < 2 ^ 52 →
  ∃ t, 0 ≤ t ∧
       round64 (value (ip ++ 5%nat :: zeros))
         (- Z.of_nat (length (5%nat :: zeros))) =
         Finite ((2 * value ip + 1) * 2 ^ t) (- (t + 1)).
Proof.
  intros Hip Hzs Hz Hlt.
  change (ip ++ 5%nat :: zeros) with (ip ++ [5%nat] ++ zeros).
  rewrite app_assoc, value_app, (value_app ip [5%nat]).
  rewrite (proj2 (value_zero zeros Hzs) Hz), Z.add_0_r.
  change (value [5%nat]) with 5.
  change (10 ^ Z.of_nat (length [5%nat])) with 10.
  pose proof (value_bounds ip Hip) as [Hge _].
  pose proof (pow10_pos (length zeros)) as Hp.
  set (N := value ip) in *. set (p := 10 ^ Z.of_nat (length zeros)) in *.
  unfold round64.
  destruct (Z.eqb_spec ((N * 10 + 5) * p) 0) as [E|E]; [nia|].
  cbn [length]. rewrite Nat2Z.inj_succ.
  destruct (Z.leb_spec 0 (- Z.succ (Z.of_nat (length zeros)))); [lia|].
  rewrite Z.opp_involutive, Z.pow_succ_r by lia. fold p.
  apply (round_ratio_exact _ _ 1 (2 * N + 1));
    [nia|nia|lia|cbn; nia|change (2 ^ 53) with (2 * 2 ^ 52); lia].
Qed.

End NumeralValues.

Section LocalFacts.

Variable to_bytes : string → Py.exn + Z.
Variable host : Host.

(** The call [volume.resize(increase_size, increase=True)] cannot be bound
    to [def resize(self, size)]. *)
Lemma call_resize_increase (self : LvmVolume.t) (size : Py.value) (w : world) :
  LvmVolume.call_resize host self [size] [("increase", Py.Int 1)] w =
    (inl (Py.TypeError
            "resize() got an unexpected keyword argument 'increase'"), w).
Proof. reflexivity. Qed.

(** [increase_size] never completes and never runs a command: each of its
    paths ends in an exception before [lvresize] is reached. *)
Lemma increase_size_never_resizes (self : Local.t)
  (size : Local.size_argument) (w : world) :
  ∃ e, Local.increase_size to_bytes host self size w = (inl e, w).
Proof.
  unfold Local.increase_size.
  destruct (Local.assert_permission _); [by eexists|].
  unfold Local._ensure_exists, Local._check_exists, LvmVolume.check_exists.
  unfold mbind, M_bind, bind, lift, ret, raise.
  assert (R : ∀ n : Z,
    ∃ e, (let (r, w') :=
            (if lexists host (executed w)
                  (LvmVolume.get_path (Local._get_data_volume self) None)
             then λ s, (inr tt, s)
             else λ s, (inl (Py.HardDriveDoesNotExistException
                               "Disk does not exist"), s)) w in
          match r with
          | inl e => (inl e, w')
          | inr _ =>
              (if negb (Local.is_stopped (Local.vm_object self))
               then λ s, (inl (Py.VmAlreadyStartedException
                    "VM must be stopped before increasing disk size"), s)
               else
                 if (bool_decide
                       (is_Some (Local.getCloneParent (Local.vm_object self)))
                     || negb (bool_decide
                          (Local.getCloneChildren (Local.vm_object self) = [])))%bool
                 then λ s, (inl (Py.VmIsCloneException
                    "Cannot increase the disk of a cloned VM or a clone."), s)
                 else LvmVolume.call_resize host (Local._get_data_volume self)
                        [Py.Int n] [("increase", Py.Int 1)]) w'
          end) = (inl e, w)).
  { intros n. destruct (lexists host _ _); [|by eexists].
    destruct (Local.is_stopped _); cbn [negb]; [|by eexists].
    destruct (_ || _)%bool; [by eexists|].
    rewrite call_resize_increase. by eexists. }
  destruct size as [n|t]; [apply R|].
  destruct (to_bytes t); [by eexists|apply R].
Qed.

(** With every precondition of [increase_size] met, the exception is the
    [TypeError] of the call of [resize]. *)
Lemma increase_size_TypeError (self : Local.t) (n : Z) (w : world) :
  Local.assert_permission (Local.vm_object self) = None →
  lexists host (executed w)
    (LvmVolume.get_path (Local._get_data_volume self) None) = true →
  Local.is_stopped (Local.vm_object self) = true →
  Local.getCloneParent (Local.vm_object self) = None →
  Local.getCloneChildren (Local.vm_object self) = [] →
  Local.increase_size to_bytes host self (Local.SizeInt n) w =
    (inl (Py.TypeError
            "resize() got an unexpected keyword argument 'increase'"), w).
Proof.
  intros Hp He Hs Hc Hcs. unfold Local.increase_size. rewrite Hp.
  unfold Local._ensure_exists, Local._check_exists, LvmVolume.check_exists.
  unfold mbind, M_bind, bind, lift, ret, raise.
  cbv beta iota. rewrite He. cbv beta iota. rewrite Hs, Hc, Hcs.
  reflexivity.
Qed.

(** [get_size] reads the digits before the dot of what [lvs] prints. *)
Lemma get_size_report (self : LvmVolume.t) (w : world)
  (lead trail : list ascii) (ip fp : list nat) :
  exit_code (tool host (executed w) (Command.lvs_size self)) = 0 →
  stdout (tool host (executed w) (Command.lvs_size self)) =
    Numeral.report lead ip fp trail →
  Numeral.blanks lead → Numeral.blanks trail →
  Numeral.digits ip → Numeral.digits fp → ip ≠ [] →
  LvmVolume.get_size host self w =
    (inr (Numeral.value ip), Command.after w (Command.lvs_size self)).
Proof.
  intros Hx Hout Hl Ht Hip Hfp Hne.
  pose proof (runCommand_ok host w (Command.lvs_size self) Hx) as E.
  unfold Command.lvs_size in E, Hout |- *.
  unfold LvmVolume.get_size, try_except, mbind, M_bind, bind.
  rewrite E, Hout. unfold lift. by rewrite int_report.
Qed.

End LocalFacts.

Section EnsureHddValidProperties.
Import Factory.

Variable host : Host.
Variable node : Node.

Implicit Types (w : world) (size : Z) (nodes : list string).

Lemma select_storage_type_world storage_type w :
  (select_storage_type host node storage_type w).2 = w.
Proof.
  unfold select_storage_type.
  destruct (Py.truthy storage_type); repeat case_match; done.
Qed.

Lemma select_storage_backend_world storage_type nodes backend w :
  (select_storage_backend node storage_type nodes backend w).2 = w.
Proof.
  unfold select_storage_backend. repeat case_match; done.
Qed.

Lemma select_storage_type_only only w :
  _getAvailableStorageTypes node = [only] →
  select_storage_type host node (Py.Str (__name__ only)) w =
    (inr (Py.Str (__name__ only)), w).
Proof.
  intros H. unfold select_storage_type. rewrite H.
  destruct only; cbn [Py.truthy __name__ String.eqb negb List.map];
    rewrite bool_decide_eq_true_2 by (by left); done.
Qed.

(** C3: without a storage type, [ensure_hdd_valid] raises
    [UnknownStorageTypeException] when the node has no storage type
    available or has two or more; when it has exactly one, that one is
    selected: the call goes on as if it had been asked for, and it is the
    storage type a completed call returns. *)
Theorem ensure_hdd_valid_without_storage_type
  size (storage_type : Py.value) nodes (storage_backend : option Lvm.t) w :
  Py.truthy storage_type = false →
  (length (_getAvailableStorageTypes node) = 0%nat ∨
   (2 ≤ length (_getAvailableStorageTypes node))%nat →
   ∃ msg,
     ensure_hdd_valid host node size storage_type nodes storage_backend w =
       (inl (Py.UnknownStorageTypeException msg), w)) ∧
  (∀ only, _getAvailableStorageTypes node = [only] →
     select_storage_type host node storage_type w =
       (inr (Py.Str (__name__ only)), w) ∧
     ensure_hdd_valid host node size storage_type nodes storage_backend w =
       ensure_hdd_valid host node size (Py.Str (__name__ only)) nodes
         storage_backend w ∧
     ∀ r w',
       ensure_hdd_valid host node size storage_type nodes storage_backend w =
         (inr r, w') →
       r = Py.Str (__name__ only)).
Proof.
  intros Hst. split.
  - intros Hlen. unfold ensure_hdd_valid, select_storage_type, mbind, M_bind,
      bind. rewrite Hst.
    destruct (_getAvailableStorageTypes node) as [|a [|b l]];
      cbn [length Nat.ltb Nat.leb] in *; [by eexists| lia | by eexists].
  - intros only Honly.
    assert (Hsel : select_storage_type host node storage_type w =
                     (inr (Py.Str (__name__ only)), w)).
    { unfold select_storage_type. by rewrite Hst, Honly. }
    split; [done|]. split.
    + unfold ensure_hdd_valid, mbind, M_bind, bind.
      by rewrite Hsel, select_storage_type_only.
    + intros r w'. unfold ensure_hdd_valid, mbind, M_bind, bind.
      rewrite Hsel.
      destruct (select_storage_backend _ _ _ _ _) as [[?|b] w1]; [done|].
      destruct (check_free_space _ _ _ _) as [[?|?] w2]; [done|].
      destruct (_is_cluster_master node).
      * destruct (run_remote_command _ _ _) as [[?|?] w3]; [done|].
        unfold ret. by intros [= <- _].
      * unfold ret. by intros [= <- _].
Qed.

(** C4: once the storage type and the storage backend are settled, free
    space below the requested size makes [ensure_hdd_valid] raise; the
    only command that has run by then is the query for the free space,
    and nothing was sent to another node. Whenever the free space is a
    number, and not an infinity, the exception is
    [InsufficientSpaceException], with a message that gives the requested
    size, the whole megabytes of the free space and the node's name. *)
Theorem ensure_hdd_valid_insufficient_space
  size (storage_type : Py.value) nodes (storage_backend : option Lvm.t) w
  (resolved_type : Py.value) (backend : Lvm.t) (free : Parse.binary64) :
  (select_storage_type host node storage_type w).1 = inr resolved_type →
  (select_storage_backend node resolved_type nodes storage_backend w).1
    = inr backend →
  exit_code (tool host (executed w) (Command.vgs_free backend)) = 0 →
  Parse.float (stdout (tool host (executed w) (Command.vgs_free backend)))
    = inr free →
  Parse.lt_int free size = true →
  ∃ e,
    ensure_hdd_valid host node size storage_type nodes storage_backend w =
      (inl e,
       {| executed := executed w ++ [Command.vgs_free backend];
          dispatched := dispatched w |}) ∧
    ∀ whole, Parse.int_of_float free = inr whole →
      e = Py.InsufficientSpaceException
            ("Attempted to create a disk with " +:+ pretty size
             +:+ " MiB, but there is only " +:+ pretty whole
             +:+ " MiB of free space available on node "
             +:+ get_hostname host +:+ ".").
Proof.
  intros Htype Hbackend _ Hfree Hlt.
  unfold ensure_hdd_valid, mbind, M_bind, bind.
  rewrite (surjective_pairing (select_storage_type _ _ _ _)).
  rewrite Htype, select_storage_type_world.
  rewrite (surjective_pairing (select_storage_backend _ _ _ _ _)).
  rewrite Hbackend, select_storage_backend_world.
  unfold check_free_space, mbind, M_bind, bind.
  rewrite get_free_space_eq, Hfree. unfold lift. rewrite Hlt.
  unfold insufficient_space_message, Parse.format_i.
  destruct (Parse.int_of_float free) as [e|whole].
  - eexists. split; [done|]. by intros ?.
  - eexists. split; [done|]. by intros ? [= <-].
Qed.

End EnsureHddValidProperties.

Section VolumeProperties.

Variable host : Host.

(** C7, as the code has it: [get_free_space] returns the free space in
    megabytes as the float [float] reads in what [vgs] printed, the
    binary64 nearest to the number printed. It is a whole number of
    megabytes when the number printed is whole (below 2 ^ 53); it is not
    one for every report: a number printed with a half is returned with
    its half. *)
Theorem get_free_space_keeps_fraction
  (backend : Lvm.t) (w : world) (lead trail : list ascii) (ip fp : list nat) :
  exit_code (tool host (executed w) (Command.vgs_free backend)) = 0 →
  stdout (tool host (executed w) (Command.vgs_free backend)) =
    Numeral.report lead ip fp trail →
  Numeral.blanks lead → Numeral.blanks trail →
  Numeral.digits ip → Numeral.digits fp → ip ≠ [] →
  ∃ free,
    Lvm.get_free_space host backend w =
      (inr free, Command.after w (Command.vgs_free backend)) ∧
    free = Parse.round64 (Numeral.value (ip ++ fp))
             (- Z.of_nat (length fp)) ∧
    (Forall (λ d, d = 0%nat) fp → (Numeral.value ip < 2 ^ 53)%Z →
     Parse.is_whole free = true ∧
     Parse.int_of_float free = inr (Numeral.value ip)) ∧
    (∀ zeros, fp = 5%nat :: zeros → Forall (λ d, d = 0%nat) zeros →
     (Numeral.value ip < 2 ^ 52)%Z →
     Parse.is_whole free = false ∧
     Parse.int_of_float free = inr (Numeral.value ip) ∧
     ∀ n : Z, Parse.lt_int free n
              = Z.ltb (2 * Numeral.value ip + 1) (n * 2)).
Proof.
  intros _ Hout Hl Ht Hip Hfp Hne.
  eexists. rewrite get_free_space_eq, Hout, float_report by done.
  split; [done|]. split; [done|].
  pose proof (value_bounds ip Hip) as [Hge _]. split.
  - intros Hz Hlt.
    destruct (round64_whole ip fp Hip Hfp Hz Hlt) as (t & Ht0 & ->).
    rewrite exact_is_whole, exact_int_of_float by lia.
    change (2 ^ 0)%Z with 1%Z. by rewrite Z.mod_1_r, Z.div_1_r.
  - intros zeros -> Hz Hlt.
    assert (Hzs : Numeral.digits zeros).
    { eapply Forall_impl; [exact Hz|]. intros d ->. unfold lt. lia. }
    destruct (round64_half ip zeros Hip Hzs Hz Hlt) as (t & Ht0 & ->).
    rewrite exact_is_whole, exact_int_of_float by lia.
    change (2 ^ 1)%Z with 2%Z.
    split; [|split].
    + apply Z.eqb_neq.
      rewrite Z.add_comm, Z.mul_comm, Z.mod_add by lia. done.
    + f_equal. rewrite Z.add_comm, Z.mul_comm, Z.div_add by lia. done.
    + intros n. by rewrite exact_lt_int by lia.
Qed.

(** C8: [delete] with [ignore_non_existent] on a volume that does not
    exist runs no command and raises nothing; otherwise it runs the
    removal command, and a failure of that command is raised as
    [ExternalStorageCommandErrorException] with the command's failure
    text. *)
Theorem delete_ignore_non_existent
  (self : LvmVolume.t) (ignore_non_existent : bool) (w : world) :
  (ignore_non_existent = true →
   LvmVolume.check_exists host self w = (inr false, w) →
   LvmVolume.delete host self ignore_non_existent w = (inr tt, w)) ∧
  (ignore_non_existent = false ∨
   LvmVolume.check_exists host self w = (inr true, w) →
   (exit_code (tool host (executed w) (Command.lvremove self)) = 0 →
    LvmVolume.delete host self ignore_non_existent w =
      (inr tt, {| executed := executed w ++ [Command.lvremove self];
                  dispatched := dispatched w |})) ∧
   (exit_code (tool host (executed w) (Command.lvremove self)) ≠ 0 →
    LvmVolume.delete host self ignore_non_existent w =
      (inl (Py.ExternalStorageCommandErrorException
              ("Error whilst removing logical volume:" +:+ newline +:+
               failure_text host (Command.lvremove self)
                 (tool host (executed w) (Command.lvremove self)))),
       {| executed := executed w ++ [Command.lvremove self];
          dispatched := dispatched w |}))).
Proof.
  split.
  - intros -> [= H]. by apply delete_skips.
  - intros H.
    assert (H' : ignore_non_existent = false ∨
                 lexists host (executed w) (LvmVolume.get_path self None) = true).
    { destruct H as [|[= H]]; [by left|by right]. }
    rewrite (delete_runs host w self ignore_non_existent H'). split; intros Hx.
    + by rewrite guarded_ok.
    + rewrite guarded_failed by done. by rewrite append_assoc.
Qed.

(** C9: [preMigrationChecks] raises [CannotMigrateLocalDiskException]
    exactly when the disk's storage backend is not shared, and passes when
    it is shared. *)
Theorem preMigrationChecks_shared (self : Local.t) (w : world) :
  ((∃ msg, Local.preMigrationChecks self w =
             (inl (Py.CannotMigrateLocalDiskException msg), w))
   ↔ Lvm.shared (Local.storage_backend self) = false) ∧
  (Local.preMigrationChecks self w = (inr tt, w)
   ↔ Lvm.shared (Local.storage_backend self) = true).
Proof.
  unfold Local.preMigrationChecks.
  destruct (Lvm.shared (Local.storage_backend self)); cbn; split; split;
    try done; try (by intros [? ?]); by eexists.
Qed.

End VolumeProperties.

(** C7 as stated fails: [vgs] prints [  12.50] and [get_free_space]
    returns 12.5, which is not a whole number of megabytes: it is below
    13, not below 12, and [int] cuts it to 12. *)
Lemma get_free_space_not_whole :
  ∃ free w',
    Lvm.get_free_space StorageExamples.host_ok StorageExamples.vg0 new_world
      = (inr free, w') ∧
    free = Parse.Finite (25 * 2 ^ 48) (-49) ∧
    Parse.is_whole free = false ∧
    Parse.lt_int free 13 = true ∧
    Parse.lt_int free 12 = false ∧
    Parse.int_of_float free = inr 12%Z.
Proof. eexists _, _. split; [vm_compute; reflexivity|]. by vm_compute. Qed.

(** C5 fails on the code: on a stopped virtual machine that is no clone
    and whose disk exists, [increase_size(100)] ends in the [TypeError] of
    the call [volume.resize(100, increase=True)], and no command has run:
    [LvmVolume.resize] has no parameter [increase]. What [resize] does
    with a size is to ask [lvresize] for that size, not for that much
    more. *)
Lemma increase_size_raises_TypeError :
  Local.increase_size StorageExamples.to_bytes StorageExamples.host_ok
    StorageExamples.disk (Local.SizeInt 100) new_world =
    (inl (Py.TypeError
            "resize() got an unexpected keyword argument 'increase'"),
     new_world) ∧
  LvmVolume.resize StorageExamples.host_ok StorageExamples.volume
    (Py.Int 100) new_world =
    (inr tt,
     {| executed := [["/sbin/lvresize"; "--size"; "100M";
                      "/dev/vg0/mcvirt_vm-vm1-disk-1"]];
        dispatched := [] |}).
Proof. split; vm_compute; reflexivity. Qed.

(** C6 fails on the code: when its command fails, [snapshot] raises the
    [MCVirtCommandException] of [System.runCommand] as it is, where
    [create] raises [ExternalStorageCommandErrorException]. *)
Lemma snapshot_raises_MCVirtCommandException :
  LvmVolume.snapshot StorageExamples.host_failing StorageExamples.volume
    StorageExamples.snapshot_volume "100M" new_world =
    (inl (Py.MCVirtCommandException
            "Command failed: Volume group has insufficient free space"),
     {| executed := [["lvcreate"; "--snapshot";
                      "/dev/vg0/mcvirt_vm-vm1-disk-1"; "--name";
                      "mcvirt_vm-vm1-disk-1_snapshot"; "--size"; "100M"]];
        dispatched := [] |}) ∧
  ∃ msg w',
    LvmVolume.create StorageExamples.host_failing StorageExamples.volume
      (Py.Int 100) new_world =
      (inl (Py.ExternalStorageCommandErrorException msg), w').
Proof. split; [vm_compute; reflexivity|]. eexists _, _. vm_compute. reflexivity. Qed.

Lemma ensure_hdd_valid_without_storage_type_witness :
  Py.truthy Py.None_ = false ∧
  Factory.select_storage_type StorageExamples.host_ok StorageExamples.node1
    Py.None_ new_world = (inr (Py.Str "Local"), new_world).
Proof.
  split; [reflexivity|].
  apply (proj2 (ensure_hdd_valid_without_storage_type StorageExamples.host_ok
                  StorageExamples.node1 10 Py.None_ ["node1"; "node2"] None
                  new_world eq_refl) Factory.Local).
  reflexivity.
Defined.

Lemma ensure_hdd_valid_insufficient_space_witness :
  Factory.ensure_hdd_valid StorageExamples.host_ok StorageExamples.node1 150
    Py.None_ ["node1"; "node2"] None new_world =
    (inl (Py.InsufficientSpaceException
            "Attempted to create a disk with 150 MiB, but there is only 12 MiB of free space available on node node1."),
     {| executed := [["vgs"; "vg0"; "-o"; "free"; "--noheadings";
                      "--nosuffix"; "--units"; "m"]];
        dispatched := [] |}).
Proof.
  destruct (ensure_hdd_valid_insufficient_space StorageExamples.host_ok
              StorageExamples.node1 150 Py.None_ ["node1"; "node2"] None
              new_world (Py.Str "Local") StorageExamples.vg0
              (Parse.Finite (25 * 2 ^ 48) (-49)))
    as (e & Hrun & He).
  - reflexivity.
  - reflexivity.
  - reflexivity.
  - vm_compute. reflexivity.
  - vm_compute. reflexivity.
  - rewrite Hrun, (He 12).
    + reflexivity.
    + vm_compute. reflexivity.
Defined.

Lemma get_free_space_keeps_fraction_witness :
  ∃ free,
    Lvm.get_free_space StorageExamples.host_ok StorageExamples.vg0 new_world =
      (inr free,
       Command.after new_world (Command.vgs_free StorageExamples.vg0)) ∧
    Parse.is_whole free = false ∧
    Parse.int_of_float free = inr (Numeral.value [1; 2]%nat).
Proof.
  destruct (get_free_space_keeps_fraction StorageExamples.host_ok
              StorageExamples.vg0 new_world [" "; " "]%char
              [ascii_of_nat 10] [1; 2]%nat [5; 0]%nat)
    as (free & Hget & _ & _ & Hhalf).
  - reflexivity.
  - vm_compute. reflexivity.
  - repeat constructor.
  - repeat constructor.
  - repeat constructor.
  - repeat constructor.
  - discriminate.
  - exists free. split; [exact Hget|].
    destruct (Hhalf [0%nat] eq_refl) as (Hw & Hi & _).
    + repeat constructor.
    + vm_compute. reflexivity.
    + split; assumption.
Defined.

Lemma delete_ignore_non_existent_witness :
  LvmVolume.delete StorageExamples.host_failing StorageExamples.volume true
    new_world = (inr tt, new_world).
Proof.
  apply (proj1 (delete_ignore_non_existent StorageExamples.host_failing
                  StorageExamples.volume true new_world)).
  - reflexivity.
  - reflexivity.
Defined.

Lemma preMigrationChecks_shared_witness :
  (∃ msg, Local.preMigrationChecks StorageExamples.disk new_world =
            (inl (Py.CannotMigrateLocalDiskException msg), new_world)) ∧
  Local.preMigrationChecks StorageExamples.shared_disk new_world =
    (inr tt, new_world).
Proof.
  split.
  - apply (proj1 (preMigrationChecks_shared StorageExamples.disk new_world)).
    reflexivity.
  - apply (proj2 (preMigrationChecks_shared StorageExamples.shared_disk
                    new_world)).
    reflexivity.
Defined.

Section CacheInvariants.
Import Factory FactorySpec CacheSpec.

Variable init : hard_drive_class → VirtualMachine → Z →
                gmap string Py.value → option Py.exn.

Implicit Types (s : state) (vm : VirtualMachine) (d : Z).
Implicit Types (cfg : gmap string Py.value) (o : nat).

Lemma getClass_name st cls :
  getClass st = inr cls ↔ st = Py.Str (__name__ cls).
Proof.
  unfold getClass, getStorageTypes, STORAGE_TYPES. cbn. split.
  - repeat case_decide; intros [= <-]; done.
  - intros ->. destruct cls; cbn; repeat case_decide; done.
Qed.

Lemma set_cache_delete_absent (k : cache_key_t) s :
  CACHED_OBJECTS s !! k = None → set_cache (delete k) s = s.
Proof.
  intros H. destruct s as [c ob dm]. unfold set_cache. cbn in *.
  by rewrite delete_id.
Qed.

Lemma getObject_keeps_matches s vm d cfg :
  cache_matches s → cache_matches (getObject init vm d cfg s).2.
Proof.
  intros Hs.
  assert (Hold : ∀ x o hd, objects s !! o = Some hd →
                           (objects s ++ [x]) !! o = Some hd).
  { intros x o hd H. by apply lookup_app_l_Some. }
  destruct (decide ((resolve_storage_type vm cfg).2 = ∅)) as [He|Hne].
  - destruct (CACHED_OBJECTS s !! cache_key vm d cfg) as [o|] eqn:Hc.
    + by rewrite (getObject_hit init s vm d cfg o He Hc).
    + destruct (construction_cases init vm d cfg)
        as [[e Hr]|(cls & Hcls & Hi)].
      * by rewrite (getObject_miss_raise init s vm d cfg e He Hc Hr).
      * rewrite He in Hi.
        rewrite (getObject_miss init s vm d cfg cls He Hc Hcls Hi).
        intros name d' t o. cbn. rewrite lookup_insert. case_decide as Hk.
        -- intros [= <-]. eexists. split.
           { apply list_lookup_middle. done. }
           cbn. unfold cache_key in Hk.
           rewrite (getClass_truthy _ _ Hcls) in Hk.
           apply getClass_name in Hcls. rewrite Hcls in Hk.
           by injection Hk as <- <- <-.
        -- intros (hd & ? & ?)%Hs. exists hd. split; [by apply Hold|done].
  - destruct (construction_cases init vm d cfg)
      as [[e Hr]|(cls & Hcls & Hi)].
    + rewrite (getObject_override_raise init s vm d cfg e Hne Hr).
      intros name d' t o. cbn. rewrite lookup_delete. case_decide; [done|].
      apply Hs.
    + rewrite (getObject_override init s vm d cfg cls Hne Hcls Hi).
      intros name d' t o. cbn. rewrite lookup_delete. case_decide; [done|].
      intros (hd & ? & ?)%Hs. exists hd. split; [by apply Hold|done].
Qed.

Lemma calls_keep_matches s s' :
  calls init s s' → cache_matches s → cache_matches s'.
Proof.
  induction 1 as [|s' vm d cfg _ IH]; [done|]. intros Hs.
  by apply getObject_keeps_matches, IH.
Qed.

Lemma initial_matches daemon : cache_matches (initial_state daemon).
Proof. intros name d t o. cbn. by rewrite lookup_empty. Qed.

(** In a state the process can reach, no entry sits under the key of a
    storage type that names no class. *)
Lemma no_entry_for_unknown_type s vm d cfg e :
  cache_matches s →
  getClass (resolve_storage_type vm cfg).1 = inl e →
  CACHED_OBJECTS s !! cache_key vm d cfg = None.
Proof.
  intros Hs Hcls.
  destruct (CACHED_OBJECTS s !! cache_key vm d cfg) as [o|] eqn:Hc; [|done].
  unfold cache_key in Hc. apply Hs in Hc as (hd & _ & _ & _ & Ht & _).
  unfold Py.or_ in Ht.
  destruct (Py.truthy (resolve_storage_type vm cfg).1).
  - apply getClass_name in Ht. by rewrite Ht in Hcls.
  - by destruct (hd_class hd).
Qed.

End CacheInvariants.

Section CacheProperties.
Import Factory FactorySpec CacheSpec.

Variable init : hard_drive_class → VirtualMachine → Z →
                gmap string Py.value → option Py.exn.

Implicit Types (s : state) (vm : VirtualMachine) (d : Z).
Implicit Types (cfg : gmap string Py.value) (o : nat).

(** X1: in every state a process reaches by calls of [getObject], an
    entry of the cache under the key (name, disk, storage type) points to
    a constructed object of that virtual machine name and disk, of the
    class the storage type names, built without overrides. *)
Theorem getObject_cache_entries_match_keys
  (daemon : bool) s (name : string) d (t : Py.value) o :
  calls init (initial_state daemon) s →
  CACHED_OBJECTS s !! (name, d, t) = Some o →
  ∃ hd, objects s !! o = Some hd ∧
        get_name (hd_vm hd) = name ∧ hd_disk_id hd = d ∧
        t = Py.Str (__name__ (hd_class hd)) ∧ hd_config hd = ∅.
Proof.
  intros Hs. apply (calls_keep_matches init _ s Hs), initial_matches.
Qed.

(** X2: a call of [getObject] changes no cache entry but the one of its
    own key, whatever its outcome. *)
Theorem getObject_other_keys_untouched s vm d cfg (k : cache_key_t) :
  k ≠ cache_key vm d cfg →
  CACHED_OBJECTS (getObject init vm d cfg s).2 !! k = CACHED_OBJECTS s !! k.
Proof.
  intros Hk. destruct (getObject_outcome init s vm d cfg); cbn; try done.
  - by rewrite lookup_insert_ne.
  - by rewrite lookup_delete_ne.
  - by rewrite lookup_delete_ne.
Qed.

(** X3: in every reachable state, a lookup whose storage type names no
    class raises the [UnknownStorageTypeException] of [getClass] and
    leaves the factory as it was: such a lookup is never answered from
    the cache, with or without overrides. *)
Theorem getObject_unknown_storage_type (daemon : bool) s vm d cfg :
  calls init (initial_state daemon) s →
  (∀ cls, (resolve_storage_type vm cfg).1 ≠ Py.Str (__name__ cls)) →
  getObject init vm d cfg s =
    (inl (Py.UnknownStorageTypeException
            ("Attempted to initialise an unknown storage type: "
             +:+ Py.str (resolve_storage_type vm cfg).1)), s).
Proof.
  intros Hs Hno.
  set (e := Py.UnknownStorageTypeException
              ("Attempted to initialise an unknown storage type: "
               +:+ Py.str (resolve_storage_type vm cfg).1)).
  assert (Hcls : getClass (resolve_storage_type vm cfg).1 = inl e).
  { unfold getClass, getStorageTypes, STORAGE_TYPES. cbn.
    pose proof (Hno Local). pose proof (Hno Drbd).
    repeat case_decide; done. }
  assert (Hm : cache_matches s)
    by (apply (calls_keep_matches init _ s Hs), initial_matches).
  pose proof (no_entry_for_unknown_type s vm d cfg e Hm Hcls) as Hc.
  assert (Hr : construction_raises init vm d cfg e).
  { unfold construction_raises. by rewrite Hcls. }
  destruct (decide ((resolve_storage_type vm cfg).2 = ∅)) as [He|Hne].
  - by apply getObject_miss_raise.
  - rewrite (getObject_override_raise init s vm d cfg e Hne Hr).
    by rewrite set_cache_delete_absent.
Qed.

(** X4: the objects registered with the daemon are exactly the objects
    constructed, each once and the latest first; a lookup answered from
    the cache registers nothing. Without a daemon nothing is registered. *)
Theorem getObject_registers_constructed (daemon : bool) s :
  calls init (initial_state daemon) s →
  pyroDaemon s =
    if daemon then Some (rev (seq 0 (length (objects s)))) else None.
Proof.
  induction 1 as [|s' vm d cfg _ IH]; [by destruct daemon|].
  assert (Hnew : ∀ cls c,
    pyroDaemon (constructed cls vm d c s') =
      if daemon
      then Some (rev (seq 0 (length (objects (constructed cls vm d c s')))))
      else None).
  { intros cls c. cbn. rewrite IH. destruct daemon; [|done].
    rewrite length_app. cbn. rewrite Nat.add_1_r, seq_S, rev_app_distr.
    done. }
  destruct (getObject_outcome init s' vm d cfg); cbn [set_cache pyroDaemon objects];
    try done; apply Hnew.
Qed.

(** X5: a lookup without overrides never takes an entry out of the cache
    nor replaces one, and when it raises it leaves the factory as it
    was. *)
Theorem getObject_plain_lookup_keeps_entries s vm d cfg :
  (resolve_storage_type vm cfg).2 = ∅ →
  (∀ k o, CACHED_OBJECTS s !! k = Some o →
          CACHED_OBJECTS (getObject init vm d cfg s).2 !! k = Some o) ∧
  (∀ e, (getObject init vm d cfg s).1 = inl e →
        (getObject init vm d cfg s).2 = s).
Proof.
  intros He.
  destruct (CACHED_OBJECTS s !! cache_key vm d cfg) as [o|] eqn:Hc.
  - by rewrite (getObject_hit init s vm d cfg o He Hc).
  - destruct (construction_cases init vm d cfg)
      as [[e Hr]|(cls & Hcls & Hi)].
    + by rewrite (getObject_miss_raise init s vm d cfg e He Hc Hr).
    + rewrite He in Hi.
      rewrite (getObject_miss init s vm d cfg cls He Hc Hcls Hi).
      split; [|done]. intros k o Hk. cbn.
      rewrite lookup_insert_ne; [done|]. intros <-. congruence.
Qed.

End CacheProperties.

(** X6: [getClass] and [__name__] are inverse to each other: [getClass]
    answers a class exactly for that class's name, and raises
    [UnknownStorageTypeException] naming the storage type for everything
    else. *)
Theorem getClass_name_round_trip (st : Py.value) :
  (∀ cls, Factory.getClass st = inr cls ↔ st = Py.Str (Factory.__name__ cls)) ∧
  ((∀ cls, st ≠ Py.Str (Factory.__name__ cls)) →
   Factory.getClass st =
     inl (Py.UnknownStorageTypeException
            ("Attempted to initialise an unknown storage type: "
             +:+ Py.str st))).
Proof.
  split; [intros cls; apply getClass_name|].
  intros Hno. unfold Factory.getClass, Factory.getStorageTypes,
    Factory.STORAGE_TYPES. cbn.
  pose proof (Hno Factory.Local). pose proof (Hno Factory.Drbd).
  repeat case_decide; done.
Qed.

Section ValidationFacts.
Import Factory FanOut.

Variable host : Host.
Variable node : Node.

Implicit Types (w : world) (size : Z) (nodes ns : list string).
Implicit Types (st : Py.value) (b : Lvm.t).

Lemma remote_command_ok size st nodes b n w :
  remote_ensure_hdd_valid node (call size st nodes b n) = None →
  remote_command node size st nodes b n w =
    (inr tt, {| executed := executed w;
                dispatched := dispatched w ++ [call size st nodes b n] |}).
Proof.
  intros H. unfold remote_command, mbind, M_bind, bind, modify.
  fold (call size st nodes b n). by rewrite H.
Qed.

Lemma remote_command_failed size st nodes b n w e :
  remote_ensure_hdd_valid node (call size st nodes b n) = Some e →
  remote_command node size st nodes b n w =
    (inl e, {| executed := executed w;
               dispatched := dispatched w ++ [call size st nodes b n] |}).
Proof.
  intros H. unfold remote_command, mbind, M_bind, bind, modify.
  fold (call size st nodes b n). by rewrite H.
Qed.

Lemma run_remote_all_ok size st nodes b ns w :
  Forall (λ n, remote_ensure_hdd_valid node (call size st nodes b n) = None)
    ns →
  run_remote_command (remote_command node size st nodes b) ns w =
    (inr tt, {| executed := executed w;
                dispatched := dispatched w ++ map (call size st nodes b) ns |}).
Proof.
  intros H. revert w. induction H as [|n ns Hn _ IH]; intros w.
  - cbn. unfold ret. destruct w. cbn. by rewrite app_nil_r.
  - cbn [run_remote_command]. unfold mbind, M_bind, bind.
    rewrite remote_command_ok by done. rewrite IH. cbn.
    by rewrite <- app_assoc.
Qed.

Lemma run_remote_some_refusal size st nodes b ns w :
  Exists (λ n, is_Some (remote_ensure_hdd_valid node (call size st nodes b n)))
    ns →
  ∃ e w' n,
    run_remote_command (remote_command node size st nodes b) ns w
      = (inl e, w') ∧
    In n ns ∧
    remote_ensure_hdd_valid node (call size st nodes b n) = Some e.
Proof.
  revert w. induction ns as [|m ns IH]; intros w Hex; [by inversion Hex|].
  cbn [run_remote_command]. unfold mbind, M_bind, bind.
  destruct (remote_ensure_hdd_valid node (call size st nodes b m))
    as [e|] eqn:Hm.
  - exists e. eexists. exists m.
    rewrite (remote_command_failed _ _ _ _ _ _ e) by done.
    split; [done|]. split; [by left|done].
  - rewrite remote_command_ok by done.
    assert (Hex' : Exists (λ n, is_Some (remote_ensure_hdd_valid node
                                           (call size st nodes b n))) ns).
    { inversion Hex as [? ? [? H]|]; subst; [congruence|done]. }
    match goal with
    | |- context [run_remote_command _ ns ?w0] =>
        destruct (IH w0 Hex') as (e & w' & n & Hrun & Hin & Hn)
    end.
    exists e, w', n. rewrite Hrun. split; [done|]. split; [by right|done].
Qed.

Lemma run_remote_world size st nodes b ns w :
  ∃ k, (run_remote_command (remote_command node size st nodes b) ns w).2 =
         {| executed := executed w;
            dispatched := dispatched w ++
              map (call size st nodes b) (take k ns) |}.
Proof.
  revert w. induction ns as [|n ns IH]; intros w.
  - exists 0%nat. cbn. destruct w. cbn. by rewrite app_nil_r.
  - cbn [run_remote_command]. unfold mbind, M_bind, bind.
    destruct (remote_ensure_hdd_valid node (call size st nodes b n))
      as [e|] eqn:Hn.
    + exists 1%nat. rewrite (remote_command_failed _ _ _ _ _ _ e) by done.
      cbn. by rewrite take_0.
    + rewrite remote_command_ok by done.
      destruct (IH {| executed := executed w;
                      dispatched := dispatched w ++ [call size st nodes b n] |})
        as [k Hk].
      exists (S k). rewrite Hk. cbn. by rewrite <- app_assoc.
Qed.

(** What the first stage answers is the name of an available class. *)
Lemma select_storage_type_result st w r w' :
  select_storage_type host node st w = (inr r, w') →
  w' = w ∧
  (∃ cls, In cls (_getAvailableStorageTypes node) ∧
          r = Py.Str (__name__ cls)) ∧
  (Py.truthy st = true → r = st).
Proof.
  unfold select_storage_type.
  destruct (Py.truthy st) eqn:Ht.
  - case_bool_decide as Hin; cbn [negb]; [|done].
    intros [= <- <-]. split; [done|]. split; [|done].
    apply list_elem_of_In, in_map_iff in Hin as (cls & <- & Hcls).
    by exists cls.
  - destruct (_getAvailableStorageTypes node) as [|a [|? ?]]; cbn; try done.
    intros [= <- <-]. split; [done|]. split; [|done].
    exists a. split; [by left|done].
Qed.

Lemma check_free_space_world size b w :
  (check_free_space host size b w).2 = Command.after w (Command.vgs_free b).
Proof.
  unfold check_free_space, mbind, M_bind, bind.
  rewrite get_free_space_eq. unfold lift.
  destruct (Parse.float _) as [?|free]; [done|].
  destruct (Parse.lt_int _ _); [|done].
  by destruct (insufficient_space_message host size free).
Qed.

Lemma check_free_space_enough size b w free :
  Parse.float (stdout (tool host (executed w) (Command.vgs_free b)))
    = inr free →
  Parse.lt_int free size = false →
  check_free_space host size b w =
    (inr tt, Command.after w (Command.vgs_free b)).
Proof.
  intros Hf Hlt. unfold check_free_space, mbind, M_bind, bind.
  rewrite get_free_space_eq, Hf. unfold lift. by rewrite Hlt.
Qed.

End ValidationFacts.

Section ValidationProperties.
Import Factory FanOut.

Variable host : Host.
Variable node : Node.

Implicit Types (w : world) (size : Z) (nodes ns : list string).
Implicit Types (st : Py.value) (b : Lvm.t).

Lemma ensure_hdd_valid_result_class
  size st nodes (storage_backend : option Lvm.t) w (r : Py.value) w' :
  ensure_hdd_valid host node size st nodes storage_backend w = (inr r, w') →
  ∃ cls, In cls (_getAvailableStorageTypes node) ∧
         isAvailable node cls = true ∧
         r = Py.Str (__name__ cls) ∧
         getClass r = inr cls ∧
         (Py.truthy st = true → r = st).
Proof.
  unfold ensure_hdd_valid, mbind, M_bind, bind.
  destruct (select_storage_type host node st w) as [[?|r1] w1] eqn:H1; [done|].
  apply select_storage_type_result in H1 as (-> & (cls & Hin & ->) & Hst).
  destruct (select_storage_backend _ _ _ _ _) as [[?|b] w2]; [done|].
  destruct (check_free_space _ _ _ _) as [[?|?] w3]; [done|].
  intros Hres. assert (r = Py.Str (__name__ cls)) as ->.
  { destruct (_is_cluster_master node).
    - destruct (run_remote_command _ _ _) as [[?|?] w4]; [done|].
      unfold ret in Hres. by injection Hres as <- _.
    - unfold ret in Hres. by injection Hres as <- _. }
  exists cls. split; [done|]. split.
  { unfold _getAvailableStorageTypes in Hin.
    by apply filter_In in Hin as [_ ?]. }
  split; [done|]. split; [by apply getClass_name|done].
Qed.

(** X8: the storage type [ensure_hdd_valid] returns is the name of a
    storage type that is available on the node, hence one [getClass]
    accepts; when a storage type was passed in, it is that one. *)
Theorem ensure_hdd_valid_returns_available_class
  size st nodes (storage_backend : option Lvm.t) w (r : Py.value) w' :
  ensure_hdd_valid host node size st nodes storage_backend w = (inr r, w') →
  ∃ cls, In cls (_getAvailableStorageTypes node) ∧
         isAvailable node cls = true ∧
         r = Py.Str (__name__ cls) ∧
         getClass r = inr cls ∧
         (Py.truthy st = true → r = st).
Proof. apply ensure_hdd_valid_result_class. Qed.

(** X9: a storage type that was passed in and is not available on the
    node is refused with [UnknownStorageTypeException], whose message
    names the storage type and the node; nothing has run by then. *)
Theorem ensure_hdd_valid_unavailable_type
  size st nodes (storage_backend : option Lvm.t) w :
  Py.truthy st = true →
  (∀ cls, isAvailable node cls = true → st ≠ Py.Str (__name__ cls)) →
  ensure_hdd_valid host node size st nodes storage_backend w =
    (inl (Py.UnknownStorageTypeException
            (Py.str st +:+ " is not supported by node "
             +:+ get_hostname host)), w).
Proof.
  intros Ht Hno. unfold ensure_hdd_valid, mbind, M_bind, bind,
    select_storage_type. rewrite Ht.
  rewrite bool_decide_eq_false_2; [done|].
  intros (cls & Heq & Hin)%list_elem_of_In%in_map_iff.
  unfold _getAvailableStorageTypes in Hin. apply filter_In in Hin as [_ Hav].
  by apply (Hno cls).
Qed.

(** X10: once the storage type is settled and no storage backend was
    passed in, the backends for the nodes are asked for, replicated ones
    exactly when the storage type is [Drbd]; none or several of them is
    an [UnknownStorageBackendException]. A backend that was passed in and
    is not available on the node raises its own exception. In each case
    nothing has run by then. *)
Theorem ensure_hdd_valid_backend_choice
  size st nodes (storage_backend : option Lvm.t) w (resolved_type : Py.value) :
  (select_storage_type host node st w).1 = inr resolved_type →
  let candidates :=
    get_all node nodes (bool_decide (resolved_type = Py.Str "Drbd")) in
  (storage_backend = None → candidates = [] →
   ensure_hdd_valid host node size st nodes storage_backend w =
     (inl (Py.UnknownStorageBackendException
             "There are no available storage backends"), w)) ∧
  (storage_backend = None → (2 ≤ length candidates)%nat →
   ensure_hdd_valid host node size st nodes storage_backend w =
     (inl (Py.UnknownStorageBackendException
             "Storage backend must be specified"), w)) ∧
  (∀ b e, storage_backend = Some b →
     Lvm.ensure_available_on_node b = Some e →
     ensure_hdd_valid host node size st nodes storage_backend w = (inl e, w)).
Proof.
  intros Htype candidates.
  assert (Hs : select_storage_type host node st w = (inr resolved_type, w)).
  { rewrite (surjective_pairing (select_storage_type _ _ _ _)).
    by rewrite Htype, select_storage_type_world. }
  unfold ensure_hdd_valid, mbind, M_bind, bind. rewrite Hs.
  unfold select_storage_backend. fold candidates.
  split; [|split].
  - intros -> Hc. change (__name__ Drbd) with "Drbd". fold candidates.
    by rewrite Hc.
  - intros -> Hc. change (__name__ Drbd) with "Drbd". fold candidates.
    destruct candidates as [|? [|? ?]]; cbn in *; [lia|lia|done].
  - intros b e -> He. by rewrite He.
Qed.

(** X11: with storage type and backend settled and free space that is
    not below the requested size (equal is enough), [ensure_hdd_valid]
    returns the storage type. A node that is not the cluster master has
    then only queried the free space; the cluster master has also sent
    the validation, with the name of the backend, once to every node of
    [nodes] but itself, when each of them accepts it. *)
Theorem ensure_hdd_valid_accepts
  size st nodes (storage_backend : option Lvm.t) w
  (resolved_type : Py.value) b (free : Parse.binary64) :
  (select_storage_type host node st w).1 = inr resolved_type →
  (select_storage_backend node resolved_type nodes storage_backend w).1
    = inr b →
  exit_code (tool host (executed w) (Command.vgs_free b)) = 0 →
  Parse.float (stdout (tool host (executed w) (Command.vgs_free b)))
    = inr free →
  Parse.lt_int free size = false →
  Forall (λ n, remote_ensure_hdd_valid node
                 (call size resolved_type nodes b n) = None)
    (remote_nodes node nodes) →
  ∃ w',
    ensure_hdd_valid host node size st nodes storage_backend w =
      (inr resolved_type, w') ∧
    executed w' = executed w ++ [Command.vgs_free b] ∧
    dispatched w' ≡ₚ
      dispatched w ++
      map (call size resolved_type nodes b)
        (if _is_cluster_master node then remote_nodes node nodes else []).
Proof.
  intros Htype Hbackend _ Hfree Hlt Hremote.
  exists (validated w size resolved_type nodes b
            (if _is_cluster_master node then remote_nodes node nodes else [])).
  split; [|done].
  unfold ensure_hdd_valid, mbind, M_bind, bind.
  rewrite (surjective_pairing (select_storage_type _ _ _ _)).
  rewrite Htype, select_storage_type_world.
  rewrite (surjective_pairing (select_storage_backend _ _ _ _ _)).
  rewrite Hbackend, select_storage_backend_world.
  rewrite (check_free_space_enough host size b w free Hfree Hlt).
  destruct (_is_cluster_master node).
  - fold (remote_nodes node nodes). by rewrite run_remote_all_ok.
  - unfold ret, validated, Command.after. cbn. by rewrite app_nil_r.
Qed.

(** X12: on the cluster master, when a node of [nodes] other than the
    local one refuses the validation, [ensure_hdd_valid] returns no
    storage type: it ends in the exception of a node that refused. *)
Theorem ensure_hdd_valid_remote_failure
  size st nodes (storage_backend : option Lvm.t) w
  (resolved_type : Py.value) b (free : Parse.binary64) :
  _is_cluster_master node = true →
  (select_storage_type host node st w).1 = inr resolved_type →
  (select_storage_backend node resolved_type nodes storage_backend w).1
    = inr b →
  exit_code (tool host (executed w) (Command.vgs_free b)) = 0 →
  Parse.float (stdout (tool host (executed w) (Command.vgs_free b)))
    = inr free →
  Parse.lt_int free size = false →
  Exists (λ n, is_Some (remote_ensure_hdd_valid node
                          (call size resolved_type nodes b n)))
    (remote_nodes node nodes) →
  ∃ e w' n,
    ensure_hdd_valid host node size st nodes storage_backend w = (inl e, w') ∧
    In n nodes ∧ n ≠ get_local_hostname node ∧
    remote_ensure_hdd_valid node (call size resolved_type nodes b n) = Some e.
Proof.
  intros Hm Htype Hbackend _ Hfree Hlt Hex.
  destruct (run_remote_some_refusal node size resolved_type nodes b
              (remote_nodes node nodes)
              (Command.after w (Command.vgs_free b)) Hex)
    as (e & w' & n & Hrun & Hin & Hn).
  exists e, w', n. split; [|split; [|split]]; [| | |done].
  - unfold ensure_hdd_valid, mbind, M_bind, bind.
    rewrite (surjective_pairing (select_storage_type _ _ _ _)).
    rewrite Htype, select_storage_type_world.
    rewrite (surjective_pairing (select_storage_backend _ _ _ _ _)).
    rewrite Hbackend, select_storage_backend_world.
    rewrite (check_free_space_enough host size b w free Hfree Hlt), Hm.
    fold (remote_nodes node nodes). by rewrite Hrun.
  - unfold remote_nodes in Hin. by apply filter_In in Hin as [? _].
  - unfold remote_nodes in Hin. apply filter_In in Hin as [_ Hne].
    intros ->. by rewrite String.eqb_refl in Hne.
Qed.

(** X13: whatever its arguments and its outcome, [ensure_hdd_valid] runs
    no command but the query for the free space of one backend, and
    sends validations only to nodes of [nodes] other than the local one,
    each for the size it was called with. *)
Theorem ensure_hdd_valid_only_queries
  size st nodes (storage_backend : option Lvm.t) w :
  let w' :=
    (ensure_hdd_valid host node size st nodes storage_backend w).2 in
  (executed w' = executed w ∨
   ∃ b, executed w' = executed w ++ [Command.vgs_free b]) ∧
  ∃ sent, dispatched w' = dispatched w ++ sent ∧
          ∀ rv, In rv sent →
                In (rv_node rv) nodes ∧
                rv_node rv ≠ get_local_hostname node ∧
                rv_size rv = size.
Proof.
  cbn zeta. unfold ensure_hdd_valid, mbind, M_bind, bind.
  assert (Hnone : ∃ sent : list RemoteValidation,
            dispatched w = dispatched w ++ sent ∧
            ∀ rv, In rv sent →
                  In (rv_node rv) nodes ∧
                  rv_node rv ≠ get_local_hostname node ∧ rv_size rv = size).
  { exists []. by rewrite app_nil_r. }
  rewrite (surjective_pairing (select_storage_type _ _ _ _)).
  rewrite select_storage_type_world.
  destruct (select_storage_type host node st w).1 as [?|r1]; [by split; [left|]|].
  rewrite (surjective_pairing (select_storage_backend _ _ _ _ _)).
  rewrite select_storage_backend_world.
  destruct (select_storage_backend node r1 nodes storage_backend w).1
    as [?|b]; [by split; [left|]|].
  rewrite (surjective_pairing (check_free_space _ _ _ _)).
  rewrite check_free_space_world.
  destruct (check_free_space host size b w).1 as [?|?].
  { cbn. split; [right; by exists b|done]. }
  destruct (_is_cluster_master node).
  - destruct (run_remote_world node size r1 nodes b
                (List.filter
                   (λ n, negb (String.eqb n (get_local_hostname node))) nodes)
                (Command.after w (Command.vgs_free b))) as [k Hk].
    rewrite (surjective_pairing (run_remote_command _ _ _)).
    rewrite Hk.
    assert (Hw : ∀ x : Py.exn + unit,
      (match x with
       | inl e => (inl e, {| executed := executed (Command.after w (Command.vgs_free b));
              dispatched := dispatched (Command.after w (Command.vgs_free b)) ++
                map (call size r1 nodes b)
                  (take k (List.filter
                     (λ n, negb (String.eqb n (get_local_hostname node))) nodes)) |})
       | inr _ => ret r1 {| executed := executed (Command.after w (Command.vgs_free b));
              dispatched := dispatched (Command.after w (Command.vgs_free b)) ++
                map (call size r1 nodes b)
                  (take k (List.filter
                     (λ n, negb (String.eqb n (get_local_hostname node))) nodes)) |}
       end).2 =
      {| executed := executed w ++ [Command.vgs_free b];
         dispatched := dispatched w ++
           map (call size r1 nodes b)
             (take k (List.filter
                (λ n, negb (String.eqb n (get_local_hostname node))) nodes)) |}).
    { by intros [?|?]. }
    rewrite Hw. cbn. split; [right; by exists b|].
    eexists. split; [done|].
    intros rv (n & <- & Hin)%in_map_iff. cbn.
    apply list_elem_of_In, elem_of_take in Hin as (i & Hi & _).
    apply list_elem_of_lookup_2, list_elem_of_In, filter_In in Hi as [Hn Hne].
    split; [done|]. split; [|done].
    intros ->. by rewrite String.eqb_refl in Hne.
  - cbn. split; [right; by exists b|done].
Qed.

End ValidationProperties.

Section BlankReports.
Import Parse Numeral.

Lemma lstrip_all_blanks l : blanks l → lstrip l = [].
Proof. induction 1 as [|c l Hc _ IH]; cbn; [done|]. by rewrite Hc. Qed.

Lemma strip_blanks l : blanks l → strip l = [].
Proof.
  intros H. unfold strip. rewrite (lstrip_all_blanks l H). reflexivity.
Qed.


End BlankReports.

Section VolumeMoreProperties.

Variable host : Host.

Implicit Types (w : world) (self : LvmVolume.t).

(** X14: [get_size] returns the whole megabytes of what [lvs] printed:
    the number its digits before the dot write. *)
Theorem get_size_whole_megabytes
  self w (lead trail : list ascii) (ip fp : list nat) :
  exit_code (tool host (executed w) (Command.lvs_size self)) = 0 →
  stdout (tool host (executed w) (Command.lvs_size self)) =
    Numeral.report lead ip fp trail →
  Numeral.blanks lead → Numeral.blanks trail →
  Numeral.digits ip → Numeral.digits fp → ip ≠ [] →
  LvmVolume.get_size host self w =
    (inr (Numeral.value ip), Command.after w (Command.lvs_size self)).
Proof.
  intros Hx Hout Hl Ht Hip Hfp Hne.
  by apply (get_size_report host self w lead trail ip fp).
Qed.

(** X15: when [lvs] succeeds and prints nothing but blanks, [get_size]
    raises the [ValueError] of [int('')]; it is not turned into an
    [ExternalStorageCommandErrorException]. *)
Theorem get_size_blank_report self w (l : list ascii) :
  exit_code (tool host (executed w) (Command.lvs_size self)) = 0 →
  stdout (tool host (executed w) (Command.lvs_size self)) =
    string_of_list_ascii l →
  Numeral.blanks l →
  LvmVolume.get_size host self w =
    (inl (Py.ValueError "invalid literal for int() with base 10: ''"),
     Command.after w (Command.lvs_size self)).
Proof.
  intros Hx Hout Hl.
  pose proof (runCommand_ok host w (Command.lvs_size self) Hx) as E.
  unfold Command.lvs_size in E, Hout |- *.
  unfold LvmVolume.get_size, try_except, mbind, M_bind, bind.
  rewrite E, Hout. unfold lift.
  by rewrite list_ascii_of_string_of_list_ascii, strip_blanks.
Qed.


(** X17: [create], [activate], [resize] and [delete] raise nothing but
    [ExternalStorageCommandErrorException], and [get_size] nothing but
    that and the [ValueError] of a report it cannot read. *)
Theorem guarded_operations_raise_storage_errors
  self w (size : Py.value) (ignore_non_existent : bool) (e : Py.exn) :
  ((LvmVolume.create host self size w).1 = inl e ∨
   (LvmVolume.activate host self w).1 = inl e ∨
   (LvmVolume.resize host self size w).1 = inl e ∨
   (LvmVolume.delete host self ignore_non_existent w).1 = inl e →
   ∃ msg, e = Py.ExternalStorageCommandErrorException msg) ∧
  ((LvmVolume.get_size host self w).1 = inl e →
   ∃ msg, e = Py.ExternalStorageCommandErrorException msg ∨
          e = Py.ValueError msg).
Proof.
  assert (G : ∀ argv prefix,
    (try_except (System.runCommand host argv true;; ret tt)
       (wrap_command_error prefix) w).1 = inl e →
    ∃ msg, e = Py.ExternalStorageCommandErrorException msg).
  { intros argv prefix.
    destruct (Z.eq_dec (exit_code (tool host (executed w) argv)) 0) as [H|H].
    - by rewrite guarded_ok.
    - rewrite guarded_failed by done. cbn. intros [= <-]. by eexists. }
  split.
  - intros [H|[H|[H|H]]].
    + by apply G in H.
    + by apply G in H.
    + by apply G in H.
    + destruct ignore_non_existent;
        [destruct (lexists host (executed w) (LvmVolume.get_path self None))
           eqn:Hex|].
      * rewrite delete_runs in H by (by right). by apply G in H.
      * by rewrite delete_skips in H.
      * rewrite delete_runs in H by (by left). by apply G in H.
  - destruct (Z.eq_dec (exit_code (tool host (executed w)
                                     (Command.lvs_size self))) 0) as [H|H].
    + pose proof (runCommand_ok host w (Command.lvs_size self) H) as E.
      unfold Command.lvs_size in E.
      unfold LvmVolume.get_size, try_except, mbind, M_bind, bind.
      rewrite E. unfold lift, Parse.int.
      destruct (Parse.signed _ _ _); [done|]. cbn. intros [= <-].
      eexists. by right.
    + rewrite get_size_failed by done. cbn. intros [= <-]. eexists. by left.
Qed.

(** X19: deleting a volume that exists, and then deleting it again with
    [ignore_non_existent], runs the removal command once: when the
    command has succeeded and the path is gone, the second call does
    nothing. *)
Theorem delete_then_delete_ignoring self w (ignore_non_existent : bool) :
  ignore_non_existent = false ∨
  lexists host (executed w) (LvmVolume.get_path self None) = true →
  exit_code (tool host (executed w) (Command.lvremove self)) = 0 →
  lexists host (executed w ++ [Command.lvremove self])
    (LvmVolume.get_path self None) = false →
  (LvmVolume.delete host self ignore_non_existent;;
   LvmVolume.delete host self true) w =
    (inr tt, Command.after w (Command.lvremove self)).
Proof.
  intros Hrun Hx Hgone. unfold mbind at 1, M_bind, bind.
  rewrite delete_runs by done. rewrite guarded_ok by done.
  by rewrite delete_skips.
Qed.

End VolumeMoreProperties.

Section LocalMoreProperties.

Variable to_bytes : string → Py.exn + Z.
Variable host : Host.

Implicit Types (w : world) (self : Local.t).

(** X18: [_removeStorage] deletes without [ignore_non_existent]: it runs
    the removal command whether the volume exists or not, and completes
    exactly when that command succeeds. *)
Theorem _removeStorage_always_runs_lvremove self w :
  executed (Local._removeStorage host self w).2 =
    executed w ++ [Command.lvremove (Local._get_data_volume self)] ∧
  ((Local._removeStorage host self w).1 = inr tt ↔
   exit_code (tool host (executed w)
                (Command.lvremove (Local._get_data_volume self))) = 0).
Proof.
  unfold Local._removeStorage. rewrite delete_runs by (by left).
  destruct (Z.eq_dec (exit_code (tool host (executed w)
              (Command.lvremove (Local._get_data_volume self)))) 0) as [H|H].
  - by rewrite guarded_ok.
  - rewrite guarded_failed by done. by cbn.
Qed.

(** X20: [increase_size] checks in this order and stops at the first
    check that fails, with nothing run: the permission, then the disk's
    existence, then that the virtual machine is stopped
    ([VmAlreadyStartedException]), then that it is no clone and has none
    ([VmIsCloneException]). *)
Theorem increase_size_refusals self (n : Z) w :
  (∀ e, Local.assert_permission (Local.vm_object self) = Some e →
        Local.increase_size to_bytes host self (Local.SizeInt n) w
        = (inl e, w)) ∧
  (Local.assert_permission (Local.vm_object self) = None →
   Local._check_exists host self w = (inr true, w) →
   (Local.is_stopped (Local.vm_object self) = false →
    Local.increase_size to_bytes host self (Local.SizeInt n) w =
      (inl (Py.VmAlreadyStartedException
              "VM must be stopped before increasing disk size"), w)) ∧
   (Local.is_stopped (Local.vm_object self) = true →
    is_Some (Local.getCloneParent (Local.vm_object self)) ∨
    Local.getCloneChildren (Local.vm_object self) ≠ [] →
    Local.increase_size to_bytes host self (Local.SizeInt n) w =
      (inl (Py.VmIsCloneException
              "Cannot increase the disk of a cloned VM or a clone."), w))).
Proof.
  split.
  - intros e He. unfold Local.increase_size. by rewrite He.
  - intros Hp [= Hex]. unfold Local.increase_size. rewrite Hp.
    unfold Local._ensure_exists, Local._check_exists, LvmVolume.check_exists.
    unfold mbind, M_bind, bind, lift, ret, raise.
    cbv beta iota. rewrite Hex. cbv beta iota. split.
    + by intros ->.
    + intros -> Hclone. cbn [negb].
      replace (bool_decide (is_Some (Local.getCloneParent (Local.vm_object self)))
               || negb (bool_decide
                          (Local.getCloneChildren (Local.vm_object self) = [])))%bool
        with true; [done|].
      symmetry. apply orb_true_iff.
      destruct Hclone as [H|H].
      * left. by apply bool_decide_eq_true_2.
      * right. by rewrite bool_decide_eq_false_2.
Qed.

(** X21: [increase_size] never completes and never runs a command,
    whatever it is given: every path ends in an exception before
    [lvresize] is reached, the last one in the [TypeError] of the call
    of [resize] with [increase=True]. *)
Theorem increase_size_never_completes
  self (size : Local.size_argument) w :
  ∃ e, Local.increase_size to_bytes host self size w = (inl e, w) ∧
       executed (Local.increase_size to_bytes host self size w).2
         = executed w.
Proof.
  destruct (increase_size_never_resizes to_bytes host self size w) as [e He].
  exists e. by rewrite He.
Qed.

End LocalMoreProperties.

(** X22: [_getAvailableStorageTypes] lists, in the order of
    [STORAGE_TYPES] and each at most once, exactly the storage types that
    report themselves available: [Local] when the node has a storage
    backend of its own. *)
Theorem _getAvailableStorageTypes_exactly_available (node : Factory.Node) :
  (∀ cls, In cls (Factory._getAvailableStorageTypes node) ↔
          Factory.isAvailable node cls = true) ∧
  (In Factory.Local (Factory._getAvailableStorageTypes node) ↔
   Factory.local_backends node ≠ []) ∧
  NoDup (Factory._getAvailableStorageTypes node) ∧
  Factory._getAvailableStorageTypes node `sublist_of` Factory.STORAGE_TYPES.
Proof.
  unfold Factory._getAvailableStorageTypes, Factory.STORAGE_TYPES.
  split; [|split; [|split]].
  - intros cls. rewrite filter_In. split; [by intros [_ ?]|].
    intros H. split; [|done]. destruct cls; cbn; auto.
  - rewrite filter_In. cbn. unfold Local.isAvailable.
    destruct (Factory.local_backends node); split; try done.
    + by intros [_ ?].
    + intros _. split; [by left|done].
  - cbn. destruct (Local.isAvailable _), (Factory.Drbd_isAvailable node);
      apply (bool_decide_unpack _); reflexivity.
  - cbn. destruct (Local.isAvailable _), (Factory.Drbd_isAvailable node);
      repeat constructor.
Qed.

(** X23: [getDrbdObjectByResourceName] returns the first Drbd hard drive
    object that has the resource name, and raises
    [HardDriveDoesNotExistException] naming it exactly when no object
    has. *)
Theorem getDrbdObjectByResourceName_first_match
  (all : list Factory.DrbdHardDrive) (name : string) :
  (∀ o, Factory.getDrbdObjectByResourceName all name = inr o ↔
        ∃ pre post, all = pre ++ o :: post ∧
                    Factory.resource_name o = name ∧
                    Forall (λ x, Factory.resource_name x ≠ name) pre) ∧
  (Factory.getDrbdObjectByResourceName all name =
     inl (Py.HardDriveDoesNotExistException
            ("Drbd hard drive with resource name '" +:+ name
             +:+ "' does not exist"))
   ↔ Forall (λ x, Factory.resource_name x ≠ name) all).
Proof.
  induction all as [|x all [IH1 IH2]]; cbn [Factory.getDrbdObjectByResourceName].
  - split.
    + intros o. split; [done|]. intros (pre & post & H & _).
      by destruct pre.
    + split; [by constructor|done].
  - destruct (String.eqb_spec (Factory.resource_name x) name) as [Heq|Hne].
    + split.
      * intros o. split.
        -- intros [= <-]. by exists [], all.
        -- intros (pre & post & H & Ho & Hpre).
           destruct pre as [|y pre]; cbn in H.
           ++ by injection H as ->.
           ++ injection H as -> _. by inversion Hpre.
      * split; [done|]. intros H. by inversion H.
    + split.
      * intros o. rewrite IH1. split.
        -- intros (pre & post & -> & Ho & Hpre).
           exists (x :: pre), post. by repeat split; [|constructor].
        -- intros (pre & post & H & Ho & Hpre).
           destruct pre as [|y pre]; cbn in H.
           ++ injection H as <- _. done.
           ++ injection H as <- ->. exists pre, post.
              split; [done|]. split; [done|]. by inversion Hpre.
      * rewrite IH2. split; [by constructor|]. intros H. by inversion H.
Qed.

(** X24: the handshake dictionary of [_getAuthObj] always holds the user
    name; it holds the password exactly when one is given, the session
    id exactly when no password is given and the connection has one, and
    never both. *)
Theorem _getAuthObj_credentials (self : Connection.t) (password : Py.value) :
  let auth := Connection._getAuthObj self password in
  auth !! "USER" = Some (Connection.username self) ∧
  auth !! "PASS" = (if Py.truthy password then Some password else None) ∧
  auth !! "SEID" =
    (if Py.truthy password then None
     else if Py.truthy (Connection.session_id self)
          then Some (Connection.session_id self) else None) ∧
  ¬ (is_Some (auth !! "PASS") ∧ is_Some (auth !! "SEID")) ∧
  (∀ k, is_Some (auth !! k) → k = "USER" ∨ k = "PASS" ∨ k = "SEID").
Proof.
  cbn zeta. unfold Connection._getAuthObj.
  destruct (Py.truthy password); [|destruct (Py.truthy _)];
    repeat split;
    try (rewrite ?lookup_insert_eq, ?lookup_insert_ne,
           ?lookup_singleton_eq, ?lookup_singleton_ne by discriminate;
         reflexivity);
    try (intros [[? H1] [? H2]];
         rewrite ?lookup_insert_eq, ?lookup_insert_ne,
           ?lookup_singleton_eq, ?lookup_singleton_ne in H1, H2
           by discriminate;
         discriminate);
    intros k [v H];
    rewrite ?lookup_insert_Some, lookup_singleton_Some in H;
    intuition auto.
Qed.

Section CreateProperties.
Import Factory.

Variable host : Host.
Variable node : Node.
Variable new_Local : DiskOwner → Py.value → option Lvm.t → Py.exn + Local.t.
Variable new_Drbd : DiskOwner → Py.value → option Lvm.t →
                    Py.exn + (Z → M world unit).

Implicit Types (vm : DiskOwner) (w : world) (size : Z).
Implicit Types (st driver : Py.value) (sb : option Lvm.t).

(** X25: [create] answers a missing permission before anything has run,
    and an exception of [ensure_hdd_valid], such as
    [InsufficientSpaceException], as it is: no hard drive object is
    constructed and no volume is created, the node is as the validation
    left it. *)
Theorem create_checks_before_creating vm size st driver sb w :
  (∀ e, modify_permission vm = Some e →
        create host node new_Local new_Drbd vm size st driver sb w
        = (inl e, w)) ∧
  (∀ e w', modify_permission vm = None →
     ensure_hdd_valid host node size st (getAvailableNodes vm) sb w
       = (inl e, w') →
     create host node new_Local new_Drbd vm size st driver sb w
       = (inl e, w')).
Proof.
  split.
  - intros e He. unfold create. by rewrite He.
  - intros e w' Hp Hv. unfold create. rewrite Hp.
    unfold mbind, M_bind, bind. by rewrite Hv.
Qed.

(** X26: when the virtual machine already has a storage type and the
    validated storage type is another one, [create] raises
    [UnknownStorageTypeException] after the validation has run, and
    constructs and creates nothing. *)
Theorem create_storage_type_mismatch
  vm size st driver sb w (r : Py.value) w' :
  modify_permission vm = None →
  ensure_hdd_valid host node size st (getAvailableNodes vm) sb w
    = (inr r, w') →
  Py.truthy (getStorageType vm) = true →
  r ≠ getStorageType vm →
  create host node new_Local new_Drbd vm size st driver sb w =
    (inl (Py.UnknownStorageTypeException
            "Storage type does not match VMs current storage type"), w').
Proof.
  intros Hp Hv Ht Hne. unfold create. rewrite Hp.
  unfold mbind, M_bind, bind. rewrite Hv, Ht.
  apply ensure_hdd_valid_result_class in Hv as (cls & _ & _ & -> & _ & _).
  rewrite bool_decide_eq_false_2 by done. by destruct cls.
Qed.

(** X27: when the validation settles on [Local] and the virtual machine
    has no other storage type, [create] constructs the [Local] object
    with the storage backend it was given and runs [lvcreate] for its
    volume with the requested size, after the validation; it returns the
    object when the command succeeds and raises
    [ExternalStorageCommandErrorException] when it fails. *)
Theorem create_local_disk
  vm size st driver sb w w' (hdd_object : Local.t) :
  modify_permission vm = None →
  ensure_hdd_valid host node size st (getAvailableNodes vm) sb w
    = (inr (Py.Str "Local"), w') →
  Py.truthy (getStorageType vm) = false ∨
  getStorageType vm = Py.Str "Local" →
  new_Local vm driver sb = inr hdd_object →
  let lvcreate :=
    Command.lvcreate (Local._get_data_volume hdd_object) (Py.Int size) in
  (exit_code (tool host (executed w') lvcreate) = 0 →
   create host node new_Local new_Drbd vm size st driver sb w =
     (inr Local, Command.after w' lvcreate)) ∧
  (exit_code (tool host (executed w') lvcreate) ≠ 0 →
   create host node new_Local new_Drbd vm size st driver sb w =
     (inl (Py.ExternalStorageCommandErrorException
             ("Error whilst creating disk logical volume:" +:+ newline +:+
              failure_text host lvcreate
                (tool host (executed w') lvcreate))),
      Command.after w' lvcreate)).
Proof.
  intros Hp Hv Htype Hnew lvcreate.
  assert (Hc : create host node new_Local new_Drbd vm size st driver sb w =
               (Local.create host hdd_object (Py.Int size);; ret Local) w').
  { unfold create. rewrite Hp. unfold mbind, M_bind, bind.
    rewrite Hv.
    assert (Hm : (if Py.truthy (getStorageType vm)
                  then if (Py.truthy (Py.Str "Local")
                           && negb (bool_decide
                                (Py.Str "Local" = getStorageType vm)))%bool
                       then raise (Py.UnknownStorageTypeException
                         "Storage type does not match VMs current storage type")
                       else ret tt
                  else ret tt) w' = (inr tt, w')).
    { destruct Htype as [-> | ->]; [done|]. cbn.
      by rewrite bool_decide_eq_true_2. }
    rewrite Hm. unfold lift. cbn [getClass getClass_loop getStorageTypes
      STORAGE_TYPES __name__].
    rewrite decide_True by done. by rewrite Hnew. }
  rewrite Hc. unfold Local.create, mbind, M_bind, bind. split; intros Hx.
  - unfold LvmVolume.create.
    by rewrite (guarded_ok host w' lvcreate).
  - by rewrite (create_failed host w').
Qed.

End CreateProperties.

Lemma getObject_cache_entries_match_keys_witness :
  ∃ hd, Factory.objects Examples.one_cached !! 0%nat = Some hd ∧
        Factory.get_name (Factory.hd_vm hd) = "vm1" ∧
        Factory.hd_disk_id hd = 1 ∧
        Py.Str "Local" = Py.Str (Factory.__name__ (Factory.hd_class hd)) ∧
        Factory.hd_config hd = ∅.
Proof.
  apply (getObject_cache_entries_match_keys Examples.init_strict true
           Examples.one_cached "vm1" 1 (Py.Str "Local") 0%nat).
  - apply FactorySpec.calls_step. constructor.
  - vm_compute. reflexivity.
Defined.

Lemma getObject_other_keys_untouched_witness :
  Factory.CACHED_OBJECTS
    (Factory.getObject Examples.init_strict MoreExamples.vm_untyped 1
       {[ "storage_type" := Py.Str "Local"; "driver" := Py.Str "ide" ]}
       Examples.one_cached).2 !! ("vm1", 1, Py.Str "Local") =
  Factory.CACHED_OBJECTS Examples.one_cached !! ("vm1", 1, Py.Str "Local").
Proof.
  apply (getObject_other_keys_untouched Examples.init_strict).
  vm_compute. discriminate.
Defined.

Lemma getObject_unknown_storage_type_witness :
  Factory.getObject Examples.init_any MoreExamples.vm_untyped 1 ∅
    (Factory.initial_state true) =
    (inl (Py.UnknownStorageTypeException
            ("Attempted to initialise an unknown storage type: "
             +:+ Py.str (Factory.resolve_storage_type
                           MoreExamples.vm_untyped ∅).1)),
     Factory.initial_state true).
Proof.
  apply (getObject_unknown_storage_type Examples.init_any true).
  - constructor.
  - intros cls H. vm_compute in H. discriminate.
Defined.

Lemma getObject_registers_constructed_witness :
  Factory.pyroDaemon MoreExamples.two_lookups =
    Some (rev (seq 0 (length (Factory.objects MoreExamples.two_lookups)))).
Proof.
  apply (getObject_registers_constructed Examples.init_strict true).
  do 2 apply FactorySpec.calls_step. constructor.
Defined.

Lemma getObject_plain_lookup_keeps_entries_witness :
  Factory.CACHED_OBJECTS
    (Factory.getObject Examples.init_strict MoreExamples.vm_untyped 1
       {[ "storage_type" := Py.Str "Local" ]} Examples.one_cached).2
    !! ("vm1", 1, Py.Str "Local") = Some 0%nat.
Proof.
  assert (H : (Factory.resolve_storage_type MoreExamples.vm_untyped
                 {[ "storage_type" := Py.Str "Local" ]}).2 = ∅)
    by (vm_compute; reflexivity).
  apply (proj1 (getObject_plain_lookup_keeps_entries Examples.init_strict
                  Examples.one_cached MoreExamples.vm_untyped 1
                  {[ "storage_type" := Py.Str "Local" ]} H)).
  vm_compute. reflexivity.
Defined.

Lemma ensure_hdd_valid_returns_available_class_witness :
  ∃ cls, In cls (Factory._getAvailableStorageTypes StorageExamples.node1) ∧
         Factory.isAvailable StorageExamples.node1 cls = true ∧
         Py.Str "Local" = Py.Str (Factory.__name__ cls) ∧
         Factory.getClass (Py.Str "Local") = inr cls ∧
         (Py.truthy Py.None_ = true → Py.Str "Local" = Py.None_).
Proof.
  apply (ensure_hdd_valid_returns_available_class StorageExamples.host_ok
           StorageExamples.node1 10 Py.None_ ["node1"; "node2"] None
           new_world (Py.Str "Local")
           (FanOut.validated new_world 10 (Py.Str "Local") ["node1"; "node2"]
              StorageExamples.vg0 ["node2"])).
  vm_compute. reflexivity.
Defined.

Lemma ensure_hdd_valid_unavailable_type_witness :
  Factory.ensure_hdd_valid StorageExamples.host_ok StorageExamples.node1 10
    (Py.Str "Drbd") ["node1"; "node2"] None new_world =
    (inl (Py.UnknownStorageTypeException
            (Py.str (Py.Str "Drbd") +:+ " is not supported by node "
             +:+ get_hostname StorageExamples.host_ok)), new_world).
Proof.
  apply (ensure_hdd_valid_unavailable_type StorageExamples.host_ok
           StorageExamples.node1).
  - reflexivity.
  - intros [] H; [discriminate|vm_compute in H; discriminate].
Defined.

Lemma ensure_hdd_valid_backend_choice_witness :
  Factory.ensure_hdd_valid StorageExamples.host_ok
    MoreExamples.node_without_backend 10 Py.None_ ["node1"; "node2"] None
    new_world =
    (inl (Py.UnknownStorageBackendException
            "There are no available storage backends"), new_world).
Proof.
  apply (proj1 (ensure_hdd_valid_backend_choice StorageExamples.host_ok
                  MoreExamples.node_without_backend 10 Py.None_
                  ["node1"; "node2"] None new_world (Py.Str "Local")
                  eq_refl)); reflexivity.
Defined.

Lemma ensure_hdd_valid_accepts_witness :
  ∃ w',
    Factory.ensure_hdd_valid MoreExamples.host_150 StorageExamples.node1 150
      Py.None_ ["node1"; "node2"] None new_world = (inr (Py.Str "Local"), w') ∧
    executed w' = executed new_world
                  ++ [Command.vgs_free StorageExamples.vg0] ∧
    dispatched w' ≡ₚ
      dispatched new_world ++
      map (FanOut.call 150 (Py.Str "Local") ["node1"; "node2"]
             StorageExamples.vg0)
        (if Factory._is_cluster_master StorageExamples.node1
         then FanOut.remote_nodes StorageExamples.node1 ["node1"; "node2"]
         else []).
Proof.
  apply (ensure_hdd_valid_accepts MoreExamples.host_150 StorageExamples.node1
           150 Py.None_ ["node1"; "node2"] None new_world (Py.Str "Local")
           StorageExamples.vg0 (Parse.Finite (75 * 2 ^ 46) (-45))).
  - reflexivity.
  - reflexivity.
  - reflexivity.
  - vm_compute. reflexivity.
  - vm_compute. reflexivity.
  - repeat constructor.
Defined.

Lemma ensure_hdd_valid_remote_failure_witness :
  ∃ e w' n,
    Factory.ensure_hdd_valid MoreExamples.host_150
      MoreExamples.node_with_full_peer 150 Py.None_
      ["node1"; "node2"; "node3"] None new_world = (inl e, w') ∧
    In n ["node1"; "node2"; "node3"] ∧
    n ≠ Factory.get_local_hostname MoreExamples.node_with_full_peer ∧
    Factory.remote_ensure_hdd_valid MoreExamples.node_with_full_peer
      (FanOut.call 150 (Py.Str "Local") ["node1"; "node2"; "node3"]
         StorageExamples.vg0 n) = Some e.
Proof.
  apply (ensure_hdd_valid_remote_failure MoreExamples.host_150
           MoreExamples.node_with_full_peer 150 Py.None_
           ["node1"; "node2"; "node3"] None new_world (Py.Str "Local")
           StorageExamples.vg0 (Parse.Finite (75 * 2 ^ 46) (-45))).
  - reflexivity.
  - reflexivity.
  - reflexivity.
  - reflexivity.
  - vm_compute. reflexivity.
  - vm_compute. reflexivity.
  - apply Exists_cons_hd. by eexists.
Defined.

Lemma get_size_whole_megabytes_witness :
  LvmVolume.get_size StorageExamples.host_ok StorageExamples.volume new_world
    = (inr (Numeral.value [1; 2]%nat),
       Command.after new_world (Command.lvs_size StorageExamples.volume)).
Proof.
  apply (get_size_whole_megabytes StorageExamples.host_ok
           StorageExamples.volume new_world [" "; " "]%char
           [ascii_of_nat 10] [1; 2]%nat [5; 0]%nat).
  - reflexivity.
  - vm_compute. reflexivity.
  - repeat constructor.
  - repeat constructor.
  - repeat constructor.
  - repeat constructor.
  - discriminate.
Defined.

Lemma get_size_blank_report_witness :
  LvmVolume.get_size MoreExamples.host_silent StorageExamples.volume new_world
    = (inl (Py.ValueError "invalid literal for int() with base 10: ''"),
       Command.after new_world (Command.lvs_size StorageExamples.volume)).
Proof.
  apply (get_size_blank_report MoreExamples.host_silent
           StorageExamples.volume new_world []).
  - reflexivity.
  - reflexivity.
  - constructor.
Defined.


Lemma delete_then_delete_ignoring_witness :
  (LvmVolume.delete MoreExamples.host_removing StorageExamples.volume false;;
   LvmVolume.delete MoreExamples.host_removing StorageExamples.volume true)
    new_world =
    (inr tt, Command.after new_world (Command.lvremove StorageExamples.volume)).
Proof.
  apply (delete_then_delete_ignoring MoreExamples.host_removing
           StorageExamples.volume new_world false).
  - left. reflexivity.
  - reflexivity.
  - reflexivity.
Defined.

Lemma increase_size_refusals_witness :
  Local.increase_size StorageExamples.to_bytes StorageExamples.host_ok
    MoreExamples.running_disk (Local.SizeInt 100) new_world =
    (inl (Py.VmAlreadyStartedException
            "VM must be stopped before increasing disk size"), new_world).
Proof.
  apply (proj1 (proj2 (increase_size_refusals StorageExamples.to_bytes
                         StorageExamples.host_ok MoreExamples.running_disk
                         100 new_world) eq_refl eq_refl)).
  reflexivity.
Defined.

Lemma create_checks_before_creating_witness :
  Factory.create StorageExamples.host_ok StorageExamples.node1
    MoreExamples.new_Local MoreExamples.new_Drbd MoreExamples.new_owner 150
    Py.None_ (Py.Str "virtio") None new_world =
    (inl (Py.InsufficientSpaceException
            "Attempted to create a disk with 150 MiB, but there is only 12 MiB of free space available on node node1."),
     Command.after new_world (Command.vgs_free StorageExamples.vg0)).
Proof.
  apply (proj2 (create_checks_before_creating StorageExamples.host_ok
                  StorageExamples.node1 MoreExamples.new_Local
                  MoreExamples.new_Drbd MoreExamples.new_owner 150 Py.None_
                  (Py.Str "virtio") None new_world)).
  - reflexivity.
  - vm_compute. reflexivity.
Defined.

Lemma create_storage_type_mismatch_witness :
  Factory.create StorageExamples.host_ok StorageExamples.node1
    MoreExamples.new_Local MoreExamples.new_Drbd MoreExamples.drbd_owner 10
    Py.None_ (Py.Str "virtio") None new_world =
    (inl (Py.UnknownStorageTypeException
            "Storage type does not match VMs current storage type"),
     FanOut.validated new_world 10 (Py.Str "Local") ["node1"; "node2"]
       StorageExamples.vg0 ["node2"]).
Proof.
  apply (create_storage_type_mismatch StorageExamples.host_ok
           StorageExamples.node1 MoreExamples.new_Local MoreExamples.new_Drbd
           MoreExamples.drbd_owner 10 Py.None_ (Py.Str "virtio") None
           new_world (Py.Str "Local")).
  - reflexivity.
  - vm_compute. reflexivity.
  - reflexivity.
  - discriminate.
Defined.

Lemma create_local_disk_witness :
  Factory.create StorageExamples.host_ok StorageExamples.node1
    MoreExamples.new_Local MoreExamples.new_Drbd MoreExamples.new_owner 10
    Py.None_ (Py.Str "virtio") None new_world =
    (inr Factory.Local,
     Command.after
       (FanOut.validated new_world 10 (Py.Str "Local") ["node1"; "node2"]
          StorageExamples.vg0 ["node2"])
       (Command.lvcreate (Local._get_data_volume StorageExamples.disk)
          (Py.Int 10))).
Proof.
  apply (proj1 (create_local_disk StorageExamples.host_ok
                  StorageExamples.node1 MoreExamples.new_Local
                  MoreExamples.new_Drbd MoreExamples.new_owner 10 Py.None_
                  (Py.Str "virtio") None new_world
                  (FanOut.validated new_world 10 (Py.Str "Local")
                     ["node1"; "node2"] StorageExamples.vg0 ["node2"])
                  StorageExamples.disk eq_refl eq_refl
                  (or_introl eq_refl) eq_refl)).
  reflexivity.
Defined.
